(** * pixel_pioneers: the mock vitals feed and the doctor dashboard

    A shallow embedding of the state-carrying parts of the front end:

    - [VitalsDashboard]: [generateMockData], the window effect that turns
      its rows into six series, the interval callback that appends one
      sample per series, and the effect/cleanup life cycle of the view;
    - [DoctorDashboard]: the alert handlers and the patient search;
    - [VitalChart]: the reading a chart takes from a series and the normal
      ranges the dashboard gives its charts;
    - [DoctorView]: the patient lookup and the counters of the doctor
      dashboard, the badge and the buttons of the alert panel, and the
      initials on a patient card.

    JavaScript numbers are idealised as real numbers ([R]); rounding of
    IEEE doubles is not modelled.  A character of a string is a code unit
    below 256 (Basic Latin and the Latin-1 Supplement), on which
    [toLowerCase] works letter by letter; code units above are outside
    the model.  An instant is its epoch time in
    milliseconds ([Z]), which [toISOString] renders injectively.  The
    results of successive [Math.random()] calls are an explicit stream
    [random : nat -> R] read through a cursor, and every reading of the wall
    clock ([new Date()]) is an explicit argument. *)

From Stdlib Require Import Reals Lra ZArith Lia List Sorted String Ascii Bool.
From stdpp Require Import base list.
Import ListNotations.

(** ** Built-ins of the host language *)

Module JS.

(** [Math.floor] on a number. *)
Definition Math_floor (x : R) : R := IZR (Zfloor x).

(** [arr.slice(-n)]: the last [n] elements, the whole array when it has
    fewer. *)
Definition slice_last {A : Type} (n : nat) (arr : list A) : list A :=
  drop (length arr - n) arr.

(** [String.prototype.toLowerCase] on one code unit below 256: the
    capitals U+0041-U+005A (A-Z), U+00C0-U+00D6 and U+00D8-U+00DE of
    Unicode have their small form 32 places further on; every other code
    unit, the multiplication sign U+00D7 among them, has no other small
    form than itself. *)
Definition lower_char (c : ascii) : ascii :=
  let n := nat_of_ascii c in
  if (65 <=? n)%nat && (n <=? 90)%nat
     || (192 <=? n)%nat && (n <=? 214)%nat
     || (216 <=? n)%nat && (n <=? 222)%nat
  then ascii_of_nat (n + 32) else c.

Fixpoint toLowerCase (s : string) : string :=
  match s with
  | EmptyString => EmptyString
  | String c s' => String (lower_char c) (toLowerCase s')
  end.

(** [s.includes(sub)]: [sub] occurs in [s] at some position. *)
Fixpoint includes (s sub : string) : bool :=
  String.prefix sub s ||
  match s with
  | EmptyString => false
  | String _ s' => includes s' sub
  end.

End JS.

(** ** The vitals dashboard (src/unnamed/part_000, [VitalsDashboard]) *)

Module VitalsDashboard.
Import JS.

(** [{ time, value }], an element of a series handed to a chart. *)
Record VitalSample : Type := { time : Z; value : R }.

(** An element of the [data] array of [generateMockData], and the
    [newPoint] of the interval callback. *)
Record DataPoint : Type := {
  d_time : Z;
  d_heartRate : R;
  d_bloodPressureSystolic : R;
  d_bloodPressureDiastolic : R;
  d_temperature : R;
  d_oxygenSaturation : R;
  d_respirationRate : R
}.

(** The [vitalsData] state once populated: one series per key. *)
Record VitalsData : Type := {
  heartRate : list VitalSample;
  bloodPressureSystolic : list VitalSample;
  bloodPressureDiastolic : list VitalSample;
  temperature : list VitalSample;
  oxygenSaturation : list VitalSample;
  respirationRate : list VitalSample
}.

(** The [timeRange] state, ['1h' | '6h' | '24h' | '7d']. *)
Inductive TimeRange : Type := R1h | R6h | R24h | R7d.

Definition TimeRange_eqb (a b : TimeRange) : bool :=
  match a, b with
  | R1h, R1h | R6h, R6h | R24h, R24h | R7d, R7d => true
  | _, _ => false
  end.

(** The six keys of [vitalsData], in the order the source lists them. *)
Inductive VitalKind : Type :=
| HeartRate | BloodPressureSystolic | BloodPressureDiastolic
| Temperature | OxygenSaturation | RespirationRate.

Definition get (k : VitalKind) (v : VitalsData) : list VitalSample :=
  match k with
  | HeartRate => heartRate v
  | BloodPressureSystolic => bloodPressureSystolic v
  | BloodPressureDiastolic => bloodPressureDiastolic v
  | Temperature => temperature v
  | OxygenSaturation => oxygenSaturation v
  | RespirationRate => respirationRate v
  end.

Definition field (k : VitalKind) (d : DataPoint) : R :=
  match k with
  | HeartRate => d_heartRate d
  | BloodPressureSystolic => d_bloodPressureSystolic d
  | BloodPressureDiastolic => d_bloodPressureDiastolic d
  | Temperature => d_temperature d
  | OxygenSaturation => d_oxygenSaturation d
  | RespirationRate => d_respirationRate d
  end.

(** Position of the kind's [Math.random()] call inside one object
    literal: the properties are evaluated in source order. *)
Definition draw (k : VitalKind) : nat :=
  match k with
  | HeartRate => 0
  | BloodPressureSystolic => 1
  | BloodPressureDiastolic => 2
  | Temperature => 3
  | OxygenSaturation => 4
  | RespirationRate => 5
  end.

(** Computations that call [Math.random()]: the cursor into the stream
    of results is threaded through. *)
Definition Rand (A : Type) : Type := nat -> A * nat.

Definition ret {A : Type} (a : A) : Rand A := fun c => (a, c).

Definition bind {A B : Type} (m : Rand A) (f : A -> Rand B) : Rand B :=
  fun c => let (a, c') := m c in f a c'.

Notation "'let*' x ':=' m 'in' f" := (bind m (fun x => f))
  (at level 10, x name, m at level 100, f at level 200).

Section Feed.

(** The results of the successive [Math.random()] calls. *)
Variable random : nat -> R.

Definition Math_random : Rand R := fun c => (random c, S c).

Local Open Scope R_scope.

(** The object literal pushed at loop index [i] (lines 26-34). *)
Definition mockPoint (now : Z) (i : nat) : Rand DataPoint :=
  let* r1 := Math_random in
  let* r2 := Math_random in
  let* r3 := Math_random in
  let* r4 := Math_random in
  let* r5 := Math_random in
  let* r6 := Math_random in
  ret {| d_time := (now - Z.of_nat i * 5 * 60000)%Z;
         d_heartRate := Math_floor (r1 * 30) + 70 + sin (INR i / 10) * 10;
         d_bloodPressureSystolic :=
           Math_floor (r2 * 20) + 110 + sin (INR i / 8) * 5;
         d_bloodPressureDiastolic :=
           Math_floor (r3 * 15) + 70 + sin (INR i / 8) * 3;
         d_temperature := 98.6 + (r4 - 0.5) * 2 + sin (INR i / 15) * 0.5;
         d_oxygenSaturation :=
           Math_floor (r5 * 5) + 95 + sin (INR i / 12) * 2;
         d_respirationRate :=
           Math_floor (r6 * 8) + 16 + sin (INR i / 7) * 2 |}.

(** [for (let i = ...; i >= 0; i--) data.push(...)], entered with
    [i >= 0]: the body runs for [i], [i - 1], ..., [0]. *)
Fixpoint mockLoop (now : Z) (i : nat) (data : list DataPoint)
  : Rand (list DataPoint) :=
  let* p := mockPoint now i in
  match i with
  | O => ret (data ++ [p])
  | S j => mockLoop now j (data ++ [p])
  end.

(** [generateMockData(hours)], with [now] the clock reading of its
    first line.  A negative bound never enters the loop. *)
Definition generateMockData (hours : Z) (now : Z) : Rand (list DataPoint) :=
  if (hours * 12 <? 0)%Z then ret []
  else mockLoop now (Z.to_nat (hours * 12)) [].

(** [data.map(d => ({ time: d.time, value: d.<key> }))]. *)
Definition toSeries (k : VitalKind) (data : list DataPoint)
  : list VitalSample :=
  map (fun d => {| time := d_time d; value := field k d |}) data.

(** The object handed to [setVitalsData] by the window effect. *)
Definition seriesOf (data : list DataPoint) : VitalsData :=
  {| heartRate := toSeries HeartRate data;
     bloodPressureSystolic := toSeries BloodPressureSystolic data;
     bloodPressureDiastolic := toSeries BloodPressureDiastolic data;
     temperature := toSeries Temperature data;
     oxygenSaturation := toSeries OxygenSaturation data;
     respirationRate := toSeries RespirationRate data |}.

Definition hoursOf (t : TimeRange) : Z :=
  match t with
  | R1h => 1
  | R6h => 6
  | R24h => 24
  | R7d => 168
  end.

(** Body of the effect on [timeRange] (lines 39-51). *)
Definition windowEffect (t : TimeRange) (now : Z) : Rand VitalsData :=
  let* data := generateMockData (hoursOf t) now in
  ret (seriesOf data).

(** [newPoint] of the interval callback (lines 60-68). *)
Definition newPoint (now : Z) : Rand DataPoint :=
  let* r1 := Math_random in
  let* r2 := Math_random in
  let* r3 := Math_random in
  let* r4 := Math_random in
  let* r5 := Math_random in
  let* r6 := Math_random in
  ret {| d_time := now;
         d_heartRate := Math_floor (r1 * 30) + 70;
         d_bloodPressureSystolic := Math_floor (r2 * 20) + 110;
         d_bloodPressureDiastolic := Math_floor (r3 * 15) + 70;
         d_temperature := 98.6 + (r4 - 0.5) * 2;
         d_oxygenSaturation := Math_floor (r5 * 5) + 95;
         d_respirationRate := Math_floor (r6 * 8) + 16 |}.

(** [[...prev.<key>.slice(-50), { time: now, value: newPoint.<key> }]]. *)
Definition pushed (k : VitalKind) (prev : VitalsData) (p : DataPoint)
  : list VitalSample :=
  slice_last 50 (get k prev) ++ [ {| time := d_time p; value := field k p |} ].

(** The updater passed to [setVitalsData] by the interval callback
    (lines 58-78), [now] being the clock reading of its first line. *)
Definition tick (now : Z) (prev : VitalsData) : Rand VitalsData :=
  let* p := newPoint now in
  ret {| heartRate := pushed HeartRate prev p;
         bloodPressureSystolic := pushed BloodPressureSystolic prev p;
         bloodPressureDiastolic := pushed BloodPressureDiastolic prev p;
         temperature := pushed Temperature prev p;
         oxygenSaturation := pushed OxygenSaturation prev p;
         respirationRate := pushed RespirationRate prev p |}.

(** Successive runs of the callback, one per clock reading. *)
Fixpoint ticks (nows : list Z) (v : VitalsData) : Rand VitalsData :=
  match nows with
  | [] => ret v
  | now :: rest => let* v' := tick now v in ticks rest v'
  end.

(** *** The view instance and its effects

    The state of one instance of the view, with the part of the host
    it touches: the interval handles registered by [setInterval] and
    not yet cleared, and the position in the [Math.random()] stream. *)
Record Component : Type := {
  mounted : bool;
  isRealTime : bool;          (* the prop *)
  timeRange : TimeRange;      (* useState('6h') *)
  vitalsData : VitalsData;    (* useState, after the window effect *)
  interval : option nat;      (* handle captured by the pending cleanup *)
  timers : list nat;          (* handles the host still fires *)
  nextHandle : nat;
  cursor : nat
}.

Definition clearInterval (h : nat) (ts : list nat) : list nat :=
  List.filter (fun t => negb (t =? h)%nat) ts.

(** [return () => clearInterval(interval)], when the effect body
    registered one (line 81); nothing to run after the early return
    of line 55. *)
Definition cleanup (s : Component) : Component :=
  match interval s with
  | None => s
  | Some h =>
      {| mounted := mounted s; isRealTime := isRealTime s;
         timeRange := timeRange s; vitalsData := vitalsData s;
         interval := None; timers := clearInterval h (timers s);
         nextHandle := nextHandle s; cursor := cursor s |}
  end.

(** Body of the effect on [isRealTime] (lines 54-82). *)
Definition realTimeEffect (s : Component) : Component :=
  if negb (isRealTime s) then s
  else
    {| mounted := mounted s; isRealTime := isRealTime s;
       timeRange := timeRange s; vitalsData := vitalsData s;
       interval := Some (nextHandle s);
       timers := timers s ++ [nextHandle s];
       nextHandle := S (nextHandle s); cursor := cursor s |}.

(** One firing of the interval callback: [setVitalsData(prev => ...)]. *)
Definition onInterval (now : Z) (s : Component) : Component :=
  let (v, c) := tick now (vitalsData s) (cursor s) in
  {| mounted := mounted s; isRealTime := isRealTime s;
     timeRange := timeRange s; vitalsData := v;
     interval := interval s; timers := timers s;
     nextHandle := nextHandle s; cursor := c |}.

(** The window effect after [timeRange] became [t]. *)
Definition onTimeRange (t : TimeRange) (now : Z) (s : Component)
  : Component :=
  let (v, c) := windowEffect t now (cursor s) in
  {| mounted := mounted s; isRealTime := isRealTime s;
     timeRange := t; vitalsData := v;
     interval := interval s; timers := timers s;
     nextHandle := nextHandle s; cursor := c |}.

Definition withRealTime (b : bool) (s : Component) : Component :=
  {| mounted := mounted s; isRealTime := b;
     timeRange := timeRange s; vitalsData := vitalsData s;
     interval := interval s; timers := timers s;
     nextHandle := nextHandle s; cursor := cursor s |}.

Definition unmounted (s : Component) : Component :=
  {| mounted := false; isRealTime := isRealTime s;
     timeRange := timeRange s; vitalsData := vitalsData s;
     interval := interval s; timers := timers s;
     nextHandle := nextHandle s; cursor := cursor s |}.

(** What can happen to an instance: a click on a window button, the
    parent passing a new [isRealTime], the teardown of the view, and
    the passing of one 5000 ms period of the wall clock. *)
Inductive Event : Type :=
| SetTimeRange (t : TimeRange) (now : Z)
| SetRealTime (b : bool)
| Unmount
| Elapse (now : Z).

(** First render followed by both effects, in source order.  The
    callback cannot fire before them: the first period has not
    elapsed.  A [Component] is the instance between two events, once the
    effects of the last one have run: the first commit, in which
    [vitalsData] still is [{}], and the commit between a change of
    [timeRange] or [isRealTime] and its effect are not states of their
    own. *)
Definition mount (realTime : bool) (now : Z) (c0 : nat) : Component :=
  let (v, c) := windowEffect R6h now c0 in
  realTimeEffect
    {| mounted := true; isRealTime := realTime;
       timeRange := R6h; vitalsData := v;
       interval := None; timers := [];
       nextHandle := 0; cursor := c |}.

(** An effect runs again only when its dependency changed, after the
    cleanup of its previous run; on teardown only the cleanup runs.
    When a period elapses the host fires every registered handle. *)
Definition step (s : Component) (e : Event) : Component :=
  match e with
  | SetTimeRange t now =>
      if mounted s && negb (TimeRange_eqb t (timeRange s))
      then onTimeRange t now s else s
  | SetRealTime b =>
      if mounted s && negb (Bool.eqb b (isRealTime s))
      then realTimeEffect (withRealTime b (cleanup s)) else s
  | Unmount =>
      if mounted s then unmounted (cleanup s) else s
  | Elapse now =>
      fold_left (fun s' _ => onInterval now s') (timers s) s
  end.

Definition run (s : Component) (evs : list Event) : Component :=
  fold_left step evs s.

(** The updater's two states. *)
Inductive Updater : Type := Running | Stopped.

Definition updater (s : Component) : Updater :=
  if mounted s && isRealTime s then Running else Stopped.

(** *** The value formula in the words of the specification

    [value = baseline + uniform_random(range) + amplitude * sin(index / period)],
    the constants being the literals of the source; [range] is the
    factor applied to [Math.random()]. *)
Definition baseline (k : VitalKind) : R :=
  match k with
  | HeartRate => 70
  | BloodPressureSystolic => 110
  | BloodPressureDiastolic => 70
  | Temperature => 98.6
  | OxygenSaturation => 95
  | RespirationRate => 16
  end.

Definition range (k : VitalKind) : R :=
  match k with
  | HeartRate => 30
  | BloodPressureSystolic => 20
  | BloodPressureDiastolic => 15
  | Temperature => 2
  | OxygenSaturation => 5
  | RespirationRate => 8
  end.

Definition amplitude (k : VitalKind) : R :=
  match k with
  | HeartRate => 10
  | BloodPressureSystolic => 5
  | BloodPressureDiastolic => 3
  | Temperature => 0.5
  | OxygenSaturation => 2
  | RespirationRate => 2
  end.

Definition period (k : VitalKind) : R :=
  match k with
  | HeartRate => 10
  | BloodPressureSystolic => 8
  | BloodPressureDiastolic => 8
  | Temperature => 15
  | OxygenSaturation => 12
  | RespirationRate => 7
  end.

(** The random part drawn from [r = Math.random()]: a whole number
    below [range], except for the temperature, where it is centred. *)
Definition uniform_random (k : VitalKind) (r : R) : R :=
  match k with
  | Temperature => (r - 0.5) * range k
  | _ => Math_floor (r * range k)
  end.

(** The sample a tick appends for kind [k] when it starts at cursor [c]. *)
Definition tickSample (k : VitalKind) (now : Z) (c : nat) : VitalSample :=
  {| time := now;
     value := baseline k + uniform_random k (random (draw k + c)) |}.

(** The samples successive ticks append, oldest first. *)
Fixpoint tickSamples (k : VitalKind) (nows : list Z) (c : nat)
  : list VitalSample :=
  match nows with
  | [] => []
  | now :: rest => tickSample k now c :: tickSamples k rest (6 + c)
  end.

(** *** Invariants *)

(** The host fires exactly the handle the pending cleanup holds, and
    there is one precisely while the updater runs. *)
Definition wired (s : Component) : Prop :=
  match updater s with
  | Running => exists h, interval s = Some h /\ timers s = [h]
  | Stopped => interval s = None /\ timers s = []
  end.

(** The six series carry the same timestamps. *)
Definition aligned (v : VitalsData) : Prop :=
  forall k1 k2, map time (get k1 v) = map time (get k2 v).

(** The interval of the specification for the values of a kind. *)
Definition lowest (k : VitalKind) : R := baseline k - range k.
Definition highest (k : VitalKind) : R := baseline k + range k + amplitude k.

Definition within (v : VitalsData) : Prop :=
  forall k x, In x (get k v) -> lowest k <= value x <= highest k.

(** States an instance can be in. *)
Definition reachable (s : Component) : Prop :=
  exists realTime now c0 evs, s = run (mount realTime now c0) evs.

End Feed.

(** *** Inputs for the examples *)

(** A stream in which every call of [Math.random()] returns 0.5. *)
Definition halves : nat -> R := fun _ => 0.5%R.

(** The clock readings of [n] successive periods after [t0]. *)
Definition periods (t0 : Z) (n : nat) : list Z :=
  map (fun i => (t0 + 5000 * Z.of_nat i)%Z) (seq 1 n).

End VitalsDashboard.

(** ** The doctor dashboard (src/Frontend/src/pages/DoctorDashboard.tsx) *)

Module DoctorDashboard.
Import JS.

Local Open Scope string_scope.

(** [type: 'critical' | 'warning' | 'info'] of an alert, and the
    [condition] of a patient. *)
Inductive AlertType : Type := critical | warning | info.

Inductive Condition : Type := Stable | Warning | Critical.

(** The [Alert] interface of the alert panel; the properties marked [?]
    are optional.  [timestamp] is the instant the ISO string encodes. *)
Record Alert : Type := {
  id : string;
  patientId : string;
  patientName : string;
  type : AlertType;
  title : string;
  description : string;
  timestamp : Z;
  acknowledged : bool;
  vital : option string;
  value : option R;
  recommendation : option string
}.

Record Vitals : Type := {
  heartRate : R;
  bloodPressure : string;
  temperature : R;
  oxygenSat : R
}.

(** The [patient] of a patient card; [room] is optional. *)
Record Patient : Type := {
  p_id : string;
  p_name : string;
  p_age : R;
  p_gender : string;
  p_room : option string;
  p_condition : Condition;
  p_lastUpdate : string;
  p_vitals : Vitals
}.

Definition mockPatients : list Patient :=
  [ {| p_id := "001"; p_name := "Sarah Johnson"; p_age := 45;
       p_gender := "Female"; p_room := Some "301A"; p_condition := Stable;
       p_lastUpdate := "2 min ago";
       p_vitals := {| heartRate := 72; bloodPressure := "120/80";
                      temperature := 98.6; oxygenSat := 98 |} |};
    {| p_id := "002"; p_name := "Michael Chen"; p_age := 62;
       p_gender := "Male"; p_room := Some "302B"; p_condition := Warning;
       p_lastUpdate := "1 min ago";
       p_vitals := {| heartRate := 105; bloodPressure := "145/95";
                      temperature := 99.2; oxygenSat := 94 |} |};
    {| p_id := "003"; p_name := "Emily Rodriguez"; p_age := 38;
       p_gender := "Female"; p_room := Some "303A"; p_condition := Critical;
       p_lastUpdate := "30 sec ago";
       p_vitals := {| heartRate := 125; bloodPressure := "160/110";
                      temperature := 101.2; oxygenSat := 88 |} |};
    {| p_id := "004"; p_name := "Robert Wilson"; p_age := 71;
       p_gender := "Male"; p_room := Some "304B"; p_condition := Stable;
       p_lastUpdate := "5 min ago";
       p_vitals := {| heartRate := 68; bloodPressure := "118/75";
                      temperature := 98.4; oxygenSat := 97 |} |} ].

(** [mockAlerts], evaluated when the module is loaded at instant [now]. *)
Definition mockAlerts (now : Z) : list Alert :=
  [ {| id := "alert-001"; patientId := "003";
       patientName := "Emily Rodriguez"; type := critical;
       title := "Critical Heart Rate";
       description := "Heart rate has exceeded 120 bpm for 10 minutes";
       timestamp := (now - 5 * 60000)%Z; acknowledged := false;
       vital := Some "Heart Rate"; value := Some 125%R;
       recommendation :=
         Some "Immediate medical attention required. Consider cardiac monitoring." |};
    {| id := "alert-002"; patientId := "002";
       patientName := "Michael Chen"; type := warning;
       title := "Elevated Blood Pressure";
       description := "Blood pressure readings consistently above normal range";
       timestamp := (now - 15 * 60000)%Z; acknowledged := false;
       vital := Some "Blood Pressure"; value := Some 145%R;
       recommendation :=
         Some "Monitor closely and consider medication adjustment." |};
    {| id := "alert-003"; patientId := "003";
       patientName := "Emily Rodriguez"; type := warning;
       title := "Low Oxygen Saturation";
       description := "SpO2 below 90% threshold";
       timestamp := (now - 8 * 60000)%Z; acknowledged := false;
       vital := Some "Oxygen Saturation"; value := Some 88%R;
       recommendation :=
         Some "Check airway, consider supplemental oxygen." |} ].

(** [{ ...alert, acknowledged: true }]. *)
Definition acknowledge (alert : Alert) : Alert :=
  {| id := id alert; patientId := patientId alert;
     patientName := patientName alert; type := type alert;
     title := title alert; description := description alert;
     timestamp := timestamp alert; acknowledged := true;
     vital := vital alert; value := value alert;
     recommendation := recommendation alert |}.

(** The updaters that the two handlers pass to [setAlerts]
    (lines 134-142). *)
Definition handleAcknowledgeAlert (alertId : string) (prev : list Alert)
  : list Alert :=
  map (fun alert =>
         if String.eqb (id alert) alertId then acknowledge alert else alert)
      prev.

Definition handleDismissAlert (alertId : string) (prev : list Alert)
  : list Alert :=
  List.filter (fun alert => negb (String.eqb (id alert) alertId)) prev.

(** The predicate of the patient search (lines 130-131); a missing
    [room] makes the optional chain [undefined], which is falsy. *)
Definition matchesSearch (searchQuery : string) (patient : Patient) : bool :=
  includes (toLowerCase (p_name patient)) (toLowerCase searchQuery)
  || match p_room patient with
     | Some room => includes (toLowerCase room) (toLowerCase searchQuery)
     | None => false
     end.

Definition searchPatients (patients : list Patient) (searchQuery : string)
  : list Patient :=
  List.filter (matchesSearch searchQuery) patients.

(** [filteredPatients] (line 129). *)
Definition filteredPatients (searchQuery : string) : list Patient :=
  searchPatients mockPatients searchQuery.

(** *** The search in the words of the specification *)

(** The letters that come in two cases, the capital first: the 26 of the
    alphabet, and those of Latin-1, U+00C0-U+00D6 with U+00E0-U+00F6 and
    U+00D8-U+00DE with U+00F8-U+00FE. *)
Definition letterCases : list (ascii * ascii) :=
  (combine (list_ascii_of_string "ABCDEFGHIJKLMNOPQRSTUVWXYZ")
           (list_ascii_of_string "abcdefghijklmnopqrstuvwxyz")
   ++ combine (map ascii_of_nat (seq 192 23)) (map ascii_of_nat (seq 224 23))
   ++ combine (map ascii_of_nat (seq 216 7)) (map ascii_of_nat (seq 248 7)))%list.

(** Two characters are the same up to case: the same character, or the
    two cases of one letter. *)
Definition sameLetter (c d : ascii) : Prop :=
  c = d \/ In (c, d) letterCases \/ In (d, c) letterCases.

(** Two strings are the same up to case: of one length, and the same up
    to case character by character. *)
Fixpoint equalIgnoringCase (s t : string) : Prop :=
  match s, t with
  | EmptyString, EmptyString => True
  | String c s', String d t' => sameLetter c d /\ equalIgnoringCase s' t'
  | _, _ => False
  end.

(** [s] contains [q] as a substring, up to the case of the letters. *)
Definition containsIgnoringCase (s q : string) : Prop :=
  exists before found after,
    s = before ++ found ++ after /\ equalIgnoringCase found q.

(** [sameLetter] as a test, and the characters there are. *)
Definition sameLetterb (c d : ascii) : bool :=
  Ascii.eqb c d
  || existsb (fun p => Ascii.eqb (fst p) c && Ascii.eqb (snd p) d) letterCases
  || existsb (fun p => Ascii.eqb (fst p) d && Ascii.eqb (snd p) c) letterCases.

Definition allChars : list ascii := map ascii_of_nat (seq 0 256).

(** Two alerts agree on everything but the acknowledged flag. *)
Definition sameButAcknowledged (a b : Alert) : Prop :=
  id a = id b /\ patientId a = patientId b
  /\ patientName a = patientName b /\ type a = type b
  /\ title a = title b /\ description a = description b
  /\ timestamp a = timestamp b /\ vital a = vital b
  /\ value a = value b /\ recommendation a = recommendation b.

(** *** Inputs for the examples *)

(** A patient whose name starts with U+00C9, [E] with acute accent. *)
Definition accented : Patient :=
  {| p_id := "006"; p_name := String "201" "mile Zola"; p_age := 62;
     p_gender := "Male"; p_room := Some "305A"; p_condition := Stable;
     p_lastUpdate := "just now";
     p_vitals := {| heartRate := 70; bloodPressure := "120/80";
                    temperature := 98.6; oxygenSat := 99 |} |}.

(** A patient who has not been given a room. *)
Definition walkIn : Patient :=
  {| p_id := "005"; p_name := "Ada Ward"; p_age := 50;
     p_gender := "Female"; p_room := None; p_condition := Stable;
     p_lastUpdate := "just now";
     p_vitals := {| heartRate := 70; bloodPressure := "120/80";
                    temperature := 98.6; oxygenSat := 99 |} |}.

End DoctorDashboard.

(** ** The chart of one vital (src/Frontend/src/components/VitalChart.tsx) *)

Module VitalChart.
Import VitalsDashboard.

(** The chart's [data] are the samples of one series; their optional
    [normal] property is never set nor read. *)

(** [normalRange?: { min, max }]. *)
Record NormalRange : Type := { min : R; max : R }.

(** [x < y] on numbers. *)
Definition lt (x y : R) : bool := if Rlt_dec x y then true else false.

(** A number used as a condition: zero is falsy. *)
Definition truthy (x : R) : bool := if Req_dec_T x 0 then false else true.

(** [arr[i]]: [undefined] outside the array. *)
Definition at_index {A : Type} (arr : list A) (i : Z) : option A :=
  if (i <? 0)%Z then None else nth_error arr (Z.to_nat i).

(** [isAbnormal] (lines 28-31). *)
Definition isAbnormal (normalRange : option NormalRange) (value : R) : bool :=
  match normalRange with
  | None => false
  | Some range => lt value (min range) || lt (max range) value
  end.

(** [data[data.length - 1]?.value] (line 33). *)
Definition latestValue (data : list VitalSample) : option R :=
  match at_index data (Z.of_nat (length data) - 1) with
  | Some sample => Some (value sample)
  | None => None
  end.

(** [latestValue && normalRange ? isAbnormal(latestValue) : false]
    (line 34). *)
Definition isCurrentAbnormal (data : list VitalSample)
  (normalRange : option NormalRange) : bool :=
  match latestValue data, normalRange with
  | Some v, Some _ => if truthy v then isAbnormal normalRange v else false
  | _, _ => false
  end.

(** What [{latestValue || '--'}] puts on the card (line 43). *)
Inductive Shown : Type :=
| ShownNumber (v : R)
| ShownText (s : string).

Definition shownValue (data : list VitalSample) : Shown :=
  match latestValue data with
  | Some v => if truthy v then ShownNumber v else ShownText "--"
  | None => ShownText "--"
  end.

(** The [normalRange] the vitals dashboard hands to the chart of each
    series (src/unnamed/part_000, lines 143-271). *)
Definition chartRange (k : VitalKind) : NormalRange :=
  match k with
  | HeartRate => {| min := 60; max := 100 |}
  | BloodPressureSystolic => {| min := 90; max := 140 |}
  | BloodPressureDiastolic => {| min := 60; max := 90 |}
  | Temperature => {| min := 97; max := 99 |}
  | OxygenSaturation => {| min := 95; max := 100 |}
  | RespirationRate => {| min := 12; max := 20 |}
  end.

(** [vitalsData.<key> || []], what the chart of kind [k] is fed with:
    [None] is the [{}] of the first commit, before the window effect has
    run, and an array, also an empty one, is truthy. *)
Definition chartData (k : VitalKind) (v : option VitalsData)
  : list VitalSample :=
  match v with
  | Some series => get k series
  | None => []
  end.

(** The chart of kind [k] fed with [vitalsData.<key>]. *)
Definition chartAbnormal (k : VitalKind) (v : VitalsData) : bool :=
  isCurrentAbnormal (get k v) (Some (chartRange k)).

Definition chartShown (k : VitalKind) (v : VitalsData) : Shown :=
  shownValue (get k v).

(** *** The values the feed can produce *)

(** The least and the greatest random part of a kind: whole numbers
    [0 .. range - 1], and [[-1, 1)] for the temperature. *)
Definition drawLow (k : VitalKind) : R :=
  match k with
  | Temperature => -1
  | _ => 0
  end.

Definition drawHigh (k : VitalKind) : R :=
  match k with
  | Temperature => 1
  | _ => range k - 1
  end.

(** The extreme values of a sample, the sine term lying in [[-1, 1]]. *)
Definition feedLow (k : VitalKind) : R := baseline k + drawLow k - amplitude k.

Definition feedHigh (k : VitalKind) : R :=
  baseline k + drawHigh k + amplitude k.

(** *** Clock readings along a run *)

(** The clock reading an event carries, if it reads the clock. *)
Definition eventClock (e : Event) : option Z :=
  match e with
  | SetTimeRange _ now => Some now
  | Elapse now => Some now
  | SetRealTime _ => None
  | Unmount => None
  end.

(** Every reading is later than the one before it, [t] being the last
    reading before the events. *)
Fixpoint chronological (t : Z) (evs : list Event) : Prop :=
  match evs with
  | [] => True
  | e :: rest =>
      match eventClock e with
      | Some now => (t < now)%Z /\ chronological now rest
      | None => chronological t rest
      end
  end.

(** The timestamps of a series increase strictly and none is later than
    the last clock reading [t]. *)
Definition ordered (t : Z) (v : VitalsData) : Prop :=
  forall k,
    StronglySorted Z.lt (map time (get k v))
    /\ Forall (fun u => (u <= t)%Z) (map time (get k v)).

(** The instance is not live and holds the window generated for its
    selection, untouched. *)
Definition pristine (random : nat -> R) (s : Component) : Prop :=
  isRealTime s = false /\ timers s = []
  /\ exists now c,
       vitalsData s
       = seriesOf (fst (generateMockData random (hoursOf (timeRange s)) now c)).

End VitalChart.

(** ** The remaining parts of the doctor dashboard *)

Module DoctorView.
Import JS DoctorDashboard.

Local Open Scope string_scope.

(** [patients.find(p => p.id === id)]. *)
Definition findPatient (patients : list Patient) (id : string)
  : option Patient :=
  List.find (fun p => String.eqb (p_id p) id) patients.

(** [getPatientById] (DoctorDashboard.tsx, lines 144-146). *)
Definition getPatientById (id : string) : option Patient :=
  findPatient mockPatients id.

Definition Condition_eqb (a b : Condition) : bool :=
  match a, b with
  | Stable, Stable | Warning, Warning | Critical, Critical => true
  | _, _ => false
  end.

(** [patients.filter(p => p.condition === c).length], the three counters
    of the header (lines 214, 225, 236); the first counter is
    [patients.length] (line 204). *)
Definition countCondition (c : Condition) (patients : list Patient) : nat :=
  length (List.filter (fun p => Condition_eqb (p_condition p) c) patients).

(** *** The alert panel (src/Frontend/src/components/Chatbox.tsx,
    [AlertPanel]) *)

(** [alerts.filter(a => !a.acknowledged).length], the badge (line 87). *)
Definition activeCount (alerts : list Alert) : nat :=
  length (List.filter (fun a => negb (acknowledged a)) alerts).

(** [alerts.length === 0]: the panel shows its empty state (line 92). *)
Definition showsEmptyState (alerts : list Alert) : bool :=
  (length alerts =? 0)%nat.

(** A click on one of the two buttons of an alert card, which hand
    [alert.id] to the handlers (lines 124 and 132). *)
Inductive Click : Type :=
| ClickAcknowledge (alertId : string)
| ClickDismiss (alertId : string).

(** The buttons the panel renders: two for every alert that is not
    acknowledged, none for the others (lines 118-137). *)
Definition buttons (alerts : list Alert) : list Click :=
  flat_map
    (fun alert =>
       if negb (acknowledged alert)
       then [ClickAcknowledge (id alert); ClickDismiss (id alert)]
       else [])
    alerts.

Definition click (alerts : list Alert) (c : Click) : list Alert :=
  match c with
  | ClickAcknowledge alertId => handleAcknowledgeAlert alertId alerts
  | ClickDismiss alertId => handleDismissAlert alertId alerts
  end.

(** A sequence of clicks, each on a button the panel renders at that
    moment, and the alert list it leads to. *)
Inductive clicks : list Alert -> list Click -> list Alert -> Prop :=
| clicks_none alerts : clicks alerts [] alerts
| clicks_next alerts c cs alerts' :
    In c (buttons alerts) ->
    clicks (click alerts c) cs alerts' ->
    clicks alerts (c :: cs) alerts'.

(** *** The patient card (src/unnamed/part_000, [PatientCard]) *)

(** [s.split(sep)] for a separator of one character. *)
Fixpoint split (sep : ascii) (s : string) : list string :=
  match s with
  | EmptyString => [EmptyString]
  | String c s' =>
      if Ascii.eqb c sep then EmptyString :: split sep s'
      else
        match split sep s' with
        | [] => [String c EmptyString]
        | piece :: pieces => String c piece :: pieces
        end
  end.

(** [n[0]]: the first character, [undefined] for the empty string. *)
Definition firstChar (n : string) : option string :=
  match n with
  | EmptyString => None
  | String c _ => Some (String c EmptyString)
  end.

(** [arr.join('')]: [undefined] elements count as empty strings. *)
Fixpoint join (arr : list (option string)) : string :=
  match arr with
  | [] => EmptyString
  | Some piece :: rest => piece ++ join rest
  | None :: rest => join rest
  end.

(** [patient.name.split(' ').map(n => n[0]).join('')], the avatar text
    (lines 328 and 330). *)
Definition initials (name : string) : string :=
  join (map firstChar (split " " name)).

(** *** Inputs for the examples *)

(** An alert that was acknowledged before the panel opened. *)
Definition handled : Alert :=
  {| id := "alert-000"; patientId := "001"; patientName := "Sarah Johnson";
     type := info; title := "Routine check";
     description := "Scheduled reading taken";
     timestamp := 0%Z; acknowledged := true;
     vital := None; value := None; recommendation := None |}.

End DoctorView.

(** ** Facts about the vitals dashboard *)

Module VitalsFacts.
Import JS VitalsDashboard.

(** *** Arrays *)

Section Slices.
Context {A : Type}.
Implicit Types (l m : list A) (x : A) (n p : nat).

Lemma length_slice_last n l :
  length (slice_last n l) = Nat.min n (length l).
Proof. unfold slice_last. rewrite length_drop. lia. Qed.

Lemma slice_last_all n l : length l <= n -> slice_last n l = l.
Proof.
  intros H. unfold slice_last.
  replace (length l - n) with 0 by lia. reflexivity.
Qed.

Lemma slice_last_app n l m :
  n <= length m -> slice_last n (l ++ m) = slice_last n m.
Proof.
  intros H. unfold slice_last. rewrite length_app.
  replace (length l + length m - n) with (length l + (length m - n)) by lia.
  apply drop_app_add.
Qed.

(** Appending after keeping the last [n] keeps the last [S n]. *)
Lemma slice_last_snoc n l x :
  slice_last n l ++ [x] = slice_last (S n) (l ++ [x]).
Proof.
  unfold slice_last. rewrite length_app. simpl.
  replace (length l + 1 - S n) with (length l - n) by lia.
  rewrite drop_app_le by lia. reflexivity.
Qed.

(** An eviction that is followed by enough appended elements cannot be
    seen by a later, wider slice. *)
Lemma slice_last_absorb n p l m :
  n <= p + length m ->
  slice_last n (slice_last p l ++ m) = slice_last n (l ++ m).
Proof.
  intros H. unfold slice_last.
  rewrite !length_app, length_drop.
  destruct (Nat.le_gt_cases (length l) p) as [Hle | Hgt].
  - replace (length l - p) with 0 by lia. rewrite Nat.sub_0_r. reflexivity.
  - replace (length l - (length l - p) + length m - n)
      with (p + length m - n) by lia.
    replace (length l + length m - n)
      with ((length l - p) + (p + length m - n)) by lia.
    rewrite <- drop_drop.
    rewrite (drop_app_le l m (length l - p)) by lia. reflexivity.
Qed.

End Slices.

(** *** Numbers *)

(** [Math.floor(Math.random() * n)] is one of [0 .. n - 1]. *)
Lemma Math_floor_draw (r : R) (n : Z) :
  (0 <= r < 1)%R -> (0 < n)%Z ->
  (0 <= Math_floor (r * IZR n) <= IZR n - 1)%R.
Proof.
  intros [H0 H1] Hn. unfold Math_floor.
  assert (0 < IZR n)%R as Hn' by (apply IZR_lt in Hn; exact Hn).
  pose proof (Zfloor_bound (r * IZR n)) as [Hlo Hhi].
  assert (0 <= r * IZR n)%R by (apply Rmult_le_pos; lra).
  assert (r * IZR n < IZR n)%R by nra.
  assert (-1 < Zfloor (r * IZR n) < n)%Z as [Ha Hb]
    by (split; apply lt_IZR; lra).
  rewrite <- minus_IZR. split; apply IZR_le; lia.
Qed.

(** *** The bulk generator *)

Section Generator.
Variable random : nat -> R.

Lemma mockPoint_cursor now i c : snd (mockPoint random now i c) = (6 + c).
Proof. reflexivity. Qed.

Lemma mockPoint_time now i c :
  d_time (fst (mockPoint random now i c)) = (now - Z.of_nat i * 300000)%Z.
Proof. cbn. lia. Qed.

(** The literals of the object literal are the constants of the
    formula. *)
Lemma mockPoint_field k now i c :
  field k (fst (mockPoint random now i c)) =
  (baseline k + uniform_random k (random (draw k + c))
   + amplitude k * sin (INR i / period k))%R.
Proof. destruct k; cbn; ring. Qed.

Lemma newPoint_cursor now c : snd (newPoint random now c) = (6 + c).
Proof. reflexivity. Qed.

Lemma newPoint_field k now c :
  field k (fst (newPoint random now c)) =
  (baseline k + uniform_random k (random (draw k + c)))%R.
Proof. destruct k; cbn; ring. Qed.

(** The loop pushes the points of indices [i], [i - 1], ..., [0], each
    built from the next six results of [Math.random()]. *)
Lemma mockLoop_spec now i : forall data c,
  mockLoop random now i data c =
  (data ++ map (fun j => fst (mockPoint random now (i - j) (6 * j + c)))
               (seq 0 (S i)),
   (6 * S i + c)).
Proof.
  induction i as [| i IH]; intros data c.
  - reflexivity.
  - change (mockLoop random now (S i) data c)
      with (mockLoop random now i
              (data ++ [fst (mockPoint random now (S i) c)]) (6 + c)).
    rewrite IH, <- app_assoc. f_equal; [| lia].
    f_equal.
    change (seq 0 (S (S i))) with (0 :: seq 1 (S i)).
    rewrite <- (seq_shift (S i) 0).
    cbn [map app]. rewrite map_map.
    apply (f_equal2 cons); [reflexivity |].
    apply map_ext. intros j. do 2 f_equal. lia.
Qed.

Lemma generateMockData_spec hours now c :
  (0 <= hours)%Z ->
  generateMockData random hours now c =
  (map (fun j => fst (mockPoint random now (Z.to_nat (hours * 12) - j)
                        (6 * j + c)))
       (seq 0 (S (Z.to_nat (hours * 12)))),
   6 * S (Z.to_nat (hours * 12)) + c).
Proof.
  intros H. unfold generateMockData.
  destruct (Z.ltb_spec (hours * 12) 0) as [Hneg | _]; [lia |].
  apply mockLoop_spec.
Qed.

Lemma generateMockData_length hours now c :
  (0 <= hours)%Z ->
  length (fst (generateMockData random hours now c))
  = Z.to_nat (hours * 12 + 1).
Proof.
  intros H. rewrite generateMockData_spec by exact H.
  cbn [fst]. rewrite length_map, length_seq. lia.
Qed.

Lemma generateMockData_nth hours now c j :
  (0 <= hours)%Z -> (j <= Z.to_nat (hours * 12)) ->
  nth_error (fst (generateMockData random hours now c)) j =
  Some (fst (mockPoint random now (Z.to_nat (hours * 12) - j)
                   (6 * j + c))).
Proof.
  intros H Hj. rewrite generateMockData_spec by exact H.
  cbn [fst]. rewrite nth_error_map, nth_error_seq.
  destruct (Nat.ltb_spec j (S (Z.to_nat (hours * 12)))); [reflexivity | lia].
Qed.

Lemma get_seriesOf k data : get k (seriesOf data) = toSeries k data.
Proof. destruct k; reflexivity. Qed.

Lemma toSeries_times k data : map time (toSeries k data) = map d_time data.
Proof. unfold toSeries. rewrite map_map. reflexivity. Qed.

Lemma toSeries_nth k data j d :
  nth_error data j = Some d ->
  nth_error (toSeries k data) j
  = Some {| time := d_time d; value := field k d |}.
Proof. intros H. unfold toSeries. rewrite nth_error_map, H. reflexivity. Qed.

End Generator.

(** *** The interval callback *)

Section Ticks.
Variable random : nat -> R.

Lemma tick_cursor now prev c : snd (tick random now prev c) = (6 + c).
Proof. reflexivity. Qed.

Lemma tick_get k now prev c :
  get k (fst (tick random now prev c)) =
  slice_last 50 (get k prev) ++ [tickSample random k now c].
Proof.
  assert (get k (fst (tick random now prev c))
          = pushed k prev (fst (newPoint random now c))) as ->
    by (destruct k; reflexivity).
  unfold pushed, tickSample. rewrite newPoint_field. reflexivity.
Qed.

Lemma ticks_cons now rest v c :
  ticks random (now :: rest) v c =
  ticks random rest (fst (tick random now v c)) (6 + c).
Proof. reflexivity. Qed.

Lemma ticks_cursor nows : forall v c,
  snd (ticks random nows v c) = (6 * length nows + c).
Proof.
  induction nows as [| now rest IH]; intros v c.
  - reflexivity.
  - rewrite ticks_cons, IH. cbn [length]. lia.
Qed.

Lemma length_tickSamples k nows : forall c,
  length (tickSamples random k nows c) = length nows.
Proof.
  induction nows as [| now rest IH]; intros c; cbn [tickSamples length].
  - reflexivity.
  - rewrite IH. reflexivity.
Qed.

(** After at least one tick a series is the last 51 elements of what
    it held followed by what the ticks appended. *)
Lemma ticks_get k nows : forall v c,
  nows <> [] ->
  get k (fst (ticks random nows v c)) =
  slice_last 51 (get k v ++ tickSamples random k nows c).
Proof.
  induction nows as [| now rest IH]; intros v c Hne; [congruence |].
  rewrite ticks_cons. cbn [tickSamples].
  destruct rest as [| now' rest'].
  - cbn [ticks tickSamples ret fst]. rewrite tick_get.
    apply slice_last_snoc.
  - rewrite IH by discriminate. rewrite tick_get, <- app_assoc.
    apply slice_last_absorb. cbn [app length]. lia.
Qed.

Lemma ticks_length k nows v c :
  nows <> [] ->
  length (get k (fst (ticks random nows v c)))
  = Nat.min 51 (length (get k v) + length nows).
Proof.
  intros Hne. rewrite ticks_get by exact Hne.
  rewrite length_slice_last, length_app, length_tickSamples. reflexivity.
Qed.

End Ticks.

(** *** The life cycle of the view *)

Section Lifecycle.
Variable random : nat -> R.

Lemma clearInterval_own h : clearInterval h [h] = [].
Proof. unfold clearInterval. cbn. rewrite Nat.eqb_refl. reflexivity. Qed.

Lemma mount_wired realTime now c0 : wired (mount random realTime now c0).
Proof.
  unfold mount. destruct (windowEffect random R6h now c0) as [v c].
  destruct realTime; cbv [wired updater realTimeEffect]; cbn.
  - exists 0. split; reflexivity.
  - split; reflexivity.
Qed.

(** Firing the callbacks touches the series and the cursor only. *)
Lemma fired_frame now (ts : list nat) : forall s,
  let s' := fold_left (fun s' _ => onInterval random now s') ts s in
  mounted s' = mounted s /\ isRealTime s' = isRealTime s /\
  timeRange s' = timeRange s /\ interval s' = interval s /\
  timers s' = timers s.
Proof.
  induction ts as [| t ts IH]; intros s; cbn [fold_left].
  - repeat split.
  - specialize (IH (onInterval random now s)). cbn zeta in IH.
    destruct IH as (-> & -> & -> & -> & ->).
    unfold onInterval.
    destruct (tick random now (vitalsData s) (cursor s)).
    repeat split.
Qed.

Lemma step_wired s e : wired s -> wired (step random s e).
Proof.
  intros H. destruct e as [t now | b | | now]; cbn [step].
  - destruct (mounted s && negb (TimeRange_eqb t (timeRange s)));
      [| exact H].
    unfold onTimeRange.
    destruct (windowEffect random t now (cursor s)). exact H.
  - destruct s as [m r t v i ts n c].
    cbv [wired updater] in H |- *. cbn in H |- *.
    destruct m, r, b; cbn in H |- *; try exact H.
    + destruct H as (h & -> & ->).
      cbv [cleanup withRealTime realTimeEffect]. cbn [interval timers].
      rewrite clearInterval_own. split; reflexivity.
    + destruct H as (-> & ->).
      cbv [cleanup withRealTime realTimeEffect]. cbn.
      exists n. split; reflexivity.
  - destruct s as [m r t v i ts n c].
    cbv [wired updater] in H |- *. cbn in H |- *.
    destruct m, r; cbn in H |- *; try exact H.
    + destruct H as (h & -> & ->).
      cbv [cleanup unmounted]. cbn [interval timers].
      rewrite clearInterval_own. split; reflexivity.
    + destruct H as (-> & ->). split; reflexivity.
  - pose proof (fired_frame now (timers s) s) as Hf. cbn zeta in Hf.
    destruct Hf as (Hm & Hr & _ & Hi & Ht).
    unfold wired, updater in *. rewrite Hm, Hr, Hi, Ht. exact H.
Qed.

Lemma run_wired evs : forall s, wired s -> wired (run random s evs).
Proof.
  induction evs as [| e evs IH]; intros s H; [exact H |].
  apply IH, step_wired, H.
Qed.

Lemma reachable_wired s : reachable random s -> wired s.
Proof.
  intros (b & now & c0 & evs & ->). apply run_wired, mount_wired.
Qed.

(** While the updater runs a period fires one callback; when it is
    stopped a period fires none. *)
Lemma elapse_running s now :
  wired s -> updater s = Running ->
  step random s (Elapse now) = onInterval random now s.
Proof.
  unfold wired. intros H Hu. rewrite Hu in H.
  destruct H as (h & _ & Ht). cbn [step]. rewrite Ht. reflexivity.
Qed.

Lemma elapse_stopped s now :
  wired s -> updater s = Stopped -> step random s (Elapse now) = s.
Proof.
  unfold wired. intros H Hu. rewrite Hu in H.
  destruct H as (_ & Ht). cbn [step]. rewrite Ht. reflexivity.
Qed.

Lemma onInterval_vitals now s :
  vitalsData (onInterval random now s)
  = fst (tick random now (vitalsData s) (cursor s)).
Proof. reflexivity. Qed.

Lemma onTimeRange_vitals t now s :
  vitalsData (onTimeRange random t now s)
  = fst (windowEffect random t now (cursor s)).
Proof.
  unfold onTimeRange.
  destruct (windowEffect random t now (cursor s)). reflexivity.
Qed.

Lemma windowEffect_vitals t now c :
  fst (windowEffect random t now c)
  = seriesOf (fst (generateMockData random (hoursOf t) now c)).
Proof.
  unfold windowEffect, bind, ret.
  destruct (generateMockData random (hoursOf t) now c). reflexivity.
Qed.

End Lifecycle.

(** *** Invariants of the series *)

Section Series.
Variable random : nat -> R.

Lemma map_slice_last {A B : Type} (f : A -> B) n (l : list A) :
  map f (slice_last n l) = slice_last n (map f l).
Proof. unfold slice_last. rewrite length_map. symmetry. apply skipn_map. Qed.

Lemma In_slice_last {A : Type} n (l : list A) x :
  In x (slice_last n l) -> In x l.
Proof.
  unfold slice_last. intros H.
  rewrite <- (firstn_skipn (length l - n) l). apply in_or_app. now right.
Qed.

Lemma aligned_seriesOf data : aligned (seriesOf data).
Proof.
  intros k1 k2. rewrite !get_seriesOf, !toSeries_times. reflexivity.
Qed.

Lemma aligned_tick now prev c :
  aligned prev -> aligned (fst (tick random now prev c)).
Proof.
  intros H k1 k2. rewrite !tick_get, !map_app, !map_slice_last.
  rewrite (H k1 k2). reflexivity.
Qed.

Lemma aligned_fired now (ts : list nat) : forall s,
  aligned (vitalsData s) ->
  aligned (vitalsData
             (fold_left (fun s' _ => onInterval random now s') ts s)).
Proof.
  induction ts as [| t ts IH]; intros s H; cbn [fold_left]; [exact H |].
  apply IH. rewrite onInterval_vitals. apply aligned_tick, H.
Qed.

Lemma aligned_mount realTime now c0 :
  aligned (vitalsData (mount random realTime now c0)).
Proof.
  unfold mount.
  pose proof (windowEffect_vitals random R6h now c0) as E.
  destruct (windowEffect random R6h now c0) as [v c]. cbn [fst] in E.
  subst v. destruct realTime; apply aligned_seriesOf.
Qed.

Lemma aligned_step s e :
  aligned (vitalsData s) -> aligned (vitalsData (step random s e)).
Proof.
  intros H. destruct e as [t now | b | | now]; cbn [step].
  - destruct (mounted s && negb (TimeRange_eqb t (timeRange s)));
      [| exact H].
    rewrite onTimeRange_vitals, windowEffect_vitals.
    apply aligned_seriesOf.
  - destruct (mounted s && negb (Bool.eqb b (isRealTime s))); [| exact H].
    unfold realTimeEffect, withRealTime, cleanup.
    destruct (interval s), b; exact H.
  - destruct (mounted s); [| exact H].
    unfold unmounted, cleanup. destruct (interval s); exact H.
  - apply aligned_fired, H.
Qed.

Lemma aligned_run evs : forall s,
  aligned (vitalsData s) -> aligned (vitalsData (run random s evs)).
Proof.
  induction evs as [| e evs IH]; intros s H; [exact H |].
  apply IH, aligned_step, H.
Qed.

End Series.

(** *** Bounds on the values *)

Section Bounds.
Variable random : nat -> R.
Hypothesis random_unit : forall n, (0 <= random n < 1)%R.

Local Open Scope R_scope.

(** The random part is a whole number in [0 .. range - 1], and for the
    temperature a number in [[-1, 1)]. *)
Lemma uniform_random_bounds k n :
  match k with
  | Temperature => -1 <= uniform_random k (random n) < 1
  | _ => 0 <= uniform_random k (random n) <= range k - 1
  end.
Proof.
  pose proof (random_unit n) as Hr.
  destruct k; cbn [uniform_random range];
    try (apply (Math_floor_draw (random n) _ Hr); lia).
  lra.
Qed.

Lemma mockPoint_within k now i c :
  lowest k <= field k (fst (mockPoint random now i c)) <= highest k.
Proof.
  rewrite mockPoint_field.
  pose proof (uniform_random_bounds k (draw k + c)) as Hu.
  pose proof (SIN_bound (INR i / period k)) as Hs.
  unfold lowest, highest.
  destruct k; cbn [baseline range amplitude] in *; lra.
Qed.

Lemma tickSample_within k now c :
  lowest k <= value (tickSample random k now c) <= highest k.
Proof.
  pose proof (uniform_random_bounds k (draw k + c)) as Hu.
  unfold lowest, highest, tickSample. cbn [value].
  destruct k; cbn [baseline range amplitude] in *; lra.
Qed.

Lemma within_generated hours now c :
  within (seriesOf (fst (generateMockData random hours now c))).
Proof.
  intros k x. rewrite get_seriesOf. unfold toSeries.
  rewrite in_map_iff. intros (d & <- & Hd). cbn [value].
  unfold generateMockData in Hd.
  destruct (hours * 12 <? 0)%Z; [contradiction Hd |].
  rewrite mockLoop_spec in Hd. cbn [fst app] in Hd.
  apply in_map_iff in Hd as (j & <- & _). apply mockPoint_within.
Qed.

Lemma within_tick now prev c :
  within prev -> within (fst (tick random now prev c)).
Proof.
  intros H k x. rewrite tick_get. intros Hx.
  apply in_app_or in Hx as [Hx | [<- | []]].
  - apply H. eapply In_slice_last, Hx.
  - apply tickSample_within.
Qed.

Lemma within_fired now (ts : list nat) : forall s,
  within (vitalsData s) ->
  within (vitalsData
            (fold_left (fun s' _ => onInterval random now s') ts s)).
Proof.
  induction ts as [| t ts IH]; intros s H; cbn [fold_left]; [exact H |].
  apply IH. rewrite onInterval_vitals. apply within_tick, H.
Qed.

Lemma within_step s e :
  within (vitalsData s) -> within (vitalsData (step random s e)).
Proof.
  intros H. destruct e as [t now | b | | now]; cbn [step].
  - destruct (mounted s && negb (TimeRange_eqb t (timeRange s)));
      [| exact H].
    rewrite onTimeRange_vitals, windowEffect_vitals.
    apply within_generated.
  - destruct (mounted s && negb (Bool.eqb b (isRealTime s))); [| exact H].
    unfold realTimeEffect, withRealTime, cleanup.
    destruct (interval s), b; exact H.
  - destruct (mounted s); [| exact H].
    unfold unmounted, cleanup. destruct (interval s); exact H.
  - apply within_fired, H.
Qed.

Lemma within_reachable s : reachable random s -> within (vitalsData s).
Proof.
  intros (b & now & c0 & evs & ->). unfold run.
  assert (within (vitalsData (mount random b now c0))) as H0.
  { unfold mount.
    pose proof (windowEffect_vitals random R6h now c0) as E.
    destruct (windowEffect random R6h now c0) as [v c]. cbn [fst] in E.
    subst v. destruct b; apply within_generated. }
  revert H0. generalize (mount random b now c0).
  induction evs as [| e evs IH]; intros s H; [exact H |].
  apply IH, within_step, H.
Qed.

End Bounds.

(** *** The generated window *)

Section Window.
Variable random : nat -> R.

(** Sample [j] of a generated series: its instant lies [12 h - j]
    five-minute steps before [now], and its value is the field of the
    point pushed at loop index [12 h - j]. *)
Lemma generated_nth k h now c j :
  (0 <= h)%Z -> j <= Z.to_nat (h * 12) ->
  nth_error (get k (seriesOf (fst (generateMockData random h now c)))) j =
  Some {| time := (now - (h * 12 - Z.of_nat j) * 300000)%Z;
          value := field k (fst (mockPoint random now
                                   (Z.to_nat (h * 12) - j)
                                   (6 * j + c))) |}.
Proof.
  intros Hh Hj. rewrite get_seriesOf.
  erewrite toSeries_nth by (apply generateMockData_nth; assumption).
  rewrite mockPoint_time. do 2 f_equal. lia.
Qed.

Lemma generated_length k h now c :
  (0 <= h)%Z ->
  length (get k (seriesOf (fst (generateMockData random h now c))))
  = Z.to_nat (h * 12 + 1).
Proof.
  intros Hh. rewrite get_seriesOf. unfold toSeries.
  rewrite length_map. apply generateMockData_length, Hh.
Qed.

Lemma generated_time k h now c j x :
  (0 <= h)%Z ->
  nth_error (get k (seriesOf (fst (generateMockData random h now c)))) j
  = Some x ->
  time x = (now - (h * 12 - Z.of_nat j) * 300000)%Z
  /\ j <= Z.to_nat (h * 12).
Proof.
  intros Hh Hx.
  assert (j < Z.to_nat (h * 12 + 1)) as Hj.
  { rewrite <- (generated_length k h now c Hh).
    apply nth_error_Some. congruence. }
  rewrite generated_nth in Hx by lia.
  injection Hx as <-. split; [reflexivity | lia].
Qed.

Lemma generated_value k h now c j x :
  (0 <= h)%Z ->
  nth_error (get k (seriesOf (fst (generateMockData random h now c)))) j
  = Some x ->
  value x = field k (fst (mockPoint random now (Z.to_nat (h * 12) - j)
                            (6 * j + c))).
Proof.
  intros Hh Hx.
  pose proof (generated_time k h now c j x Hh Hx) as [_ Hj].
  rewrite generated_nth in Hx by assumption.
  apply (f_equal (fun o => match o with Some y => value y | None => 0%R end))
    in Hx.
  cbv beta iota delta [value] in Hx. symmetry. exact Hx.
Qed.

End Window.

(** C2.  For every window length [h >= 0], each of the six series made from
    [generateMockData h] has exactly [h * 12 + 1] samples; sample [j] is
    stamped [12 h - j] steps of 5 minutes before the current time, so that
    neighbours are exactly 5 minutes (300000 ms) apart, the instants
    increase strictly, and the last sample is stamped with the current
    time.  One hour gives 13 samples, 24 hours give 289, and a window of 0
    hours gives the single sample of the current time. *)
Theorem C2_generated_window (random : nat -> R) (h now : Z) (c : nat)
  (k : VitalKind) :
  (0 <= h)%Z ->
  let series h := get k (seriesOf (fst (generateMockData random h now c))) in
  length (series h) = Z.to_nat (h * 12 + 1)
  /\ (forall j x y,
        nth_error (series h) j = Some x ->
        nth_error (series h) (S j) = Some y ->
        time y = (time x + 5 * 60000)%Z)
  /\ (forall i j x y,
        i < j ->
        nth_error (series h) i = Some x -> nth_error (series h) j = Some y ->
        (time x < time y)%Z)
  /\ (exists x,
        nth_error (series h) (length (series h) - 1) = Some x
        /\ time x = now)
  /\ length (series 1%Z) = 13
  /\ length (series 24%Z) = 289
  /\ map time (series 0%Z) = [now].
Proof.
  intros Hh series.
  assert (forall h', (0 <= h')%Z ->
            length (series h') = Z.to_nat (h' * 12 + 1)) as Hlen
    by (intros h' Hh'; apply generated_length, Hh').
  split; [apply Hlen, Hh |].
  split.
  { intros j x y Hx Hy.
    apply generated_time in Hx as [-> _]; [| exact Hh].
    apply generated_time in Hy as [-> _]; [| exact Hh]. lia. }
  split.
  { intros i j x y Hij Hx Hy.
    apply generated_time in Hx as [-> _]; [| exact Hh].
    apply generated_time in Hy as [-> _]; [| exact Hh]. lia. }
  split.
  { rewrite (Hlen h Hh). unfold series.
    rewrite generated_nth by lia.
    eexists. split; [reflexivity |]. cbn [time]. lia. }
  split; [apply (Hlen 1%Z); lia |].
  split; [apply (Hlen 24%Z); lia |].
  unfold series. rewrite get_seriesOf, toSeries_times.
  rewrite generateMockData_spec by lia. cbn. f_equal. lia.
Qed.

(** A one-hour window requested at instant 1000000. *)
Lemma C2_generated_window_witness :
  length (get HeartRate
            (seriesOf (fst (generateMockData halves 1 1000000 0)))) = 13.
Proof.
  assert (0 <= 1)%Z as H by lia.
  exact (proj1 (C2_generated_window halves 1 1000000 0 HeartRate H)).
Defined.

Lemma halves_unit : forall n, (0 <= halves n < 1)%R.
Proof. intros n. unfold halves. lra. Qed.

(** C7.  In the bulk generation the value of every sample is
    [baseline + uniform_random(range) + amplitude * sin(index / period)]
    with the constants of its kind, [index] being the loop index of the
    generator: the number of five-minute steps the sample lies before the
    current time, which is [12 h - j] for the sample at position [j].  For
    the heart rate the constants are 70, 30, 10 and 10: the value is
    [floor(r * 30) + 70 + 10 * sin(i / 10)] for the draw [r] of that
    sample, and the random part ranges over [0, 30). *)
Theorem C7_bulk_value_formula (random : nat -> R) (h now : Z) (c : nat)
  (k : VitalKind) (j : nat) (x : VitalSample) :
  (0 <= h)%Z ->
  nth_error (get k (seriesOf (fst (generateMockData random h now c)))) j
  = Some x ->
  let i := Z.to_nat (h * 12) - j in
  (value x = baseline k
             + uniform_random k (random (draw k + (6 * j + c))%nat)
             + amplitude k * sin (INR i / period k))%R
  /\ (baseline HeartRate = 70 /\ range HeartRate = 30
      /\ amplitude HeartRate = 10 /\ period HeartRate = 10)%R
  /\ (k = HeartRate ->
      value x = Math_floor (random (6 * j + c)%nat * 30) + 70
                + 10 * sin (INR i / 10))%R
  /\ (forall r, 0 <= r < 1 -> 0 <= uniform_random HeartRate r < 30)%R.
Proof.
  intros Hh Hx i.
  rewrite (generated_value random k h now c j x Hh Hx).
  fold i. rewrite mockPoint_field.
  split; [reflexivity |].
  split; [repeat split; reflexivity |].
  split.
  - intros ->. cbn. ring.
  - intros r Hr. cbn [uniform_random range].
    pose proof (Math_floor_draw r 30 Hr) as Hd.
    assert (0 < 30)%Z as H30 by lia. specialize (Hd H30). lra.
Qed.

(** The oldest heart-rate sample of a one-hour window: loop index 12. *)
Lemma C7_bulk_value_formula_witness :
  exists x,
    nth_error (get HeartRate
                 (seriesOf (fst (generateMockData halves 1 1000000 0)))) 0
    = Some x
    /\ (value x
        = Math_floor (halves 0 * 30) + 70 + 10 * sin (INR 12 / 10))%R.
Proof.
  assert (0 <= 1)%Z as H by lia.
  assert (0 <= Z.to_nat (1 * 12)) as H0 by lia.
  pose proof (generated_nth halves HeartRate 1 1000000 0 0 H H0) as E.
  eexists. split; [exact E |].
  destruct (C7_bulk_value_formula halves 1 1000000 0 HeartRate 0 _ H E)
    as (_ & _ & Hv & _).
  exact (Hv eq_refl).
Defined.

(** C4.  When [Math.random()] returns numbers of [[0, 1)], every value the
    generator produces lies between [baseline - range] and
    [baseline + range + amplitude] of its kind, [range] being the factor
    applied to [Math.random()]: the samples of a generated window, the
    sample a tick appends, and so every sample an instance ever holds.
    For the heart rate the interval is [[40, 110]]. *)
Theorem C4_values_within_bounds (random : nat -> R) :
  (forall n, 0 <= random n < 1)%R ->
  (forall h now c k x,
     In x (get k (seriesOf (fst (generateMockData random h now c)))) ->
     baseline k - range k <= value x <= baseline k + range k + amplitude k)%R
  /\ (forall now prev c k x,
        In x (get k (fst (tick random now prev c))) ->
        In x (get k prev)
        \/ (x = tickSample random k now c
            /\ baseline k - range k <= value x
               <= baseline k + range k + amplitude k)%R)
  /\ (forall s k x,
        reachable random s -> In x (get k (vitalsData s)) ->
        baseline k - range k <= value x
        <= baseline k + range k + amplitude k)%R
  /\ (baseline HeartRate - range HeartRate = 40
      /\ baseline HeartRate + range HeartRate + amplitude HeartRate = 110)%R.
Proof.
  intros Hr. split; [| split; [| split]].
  - intros h now c k x Hx.
    exact (within_generated random Hr h now c k x Hx).
  - intros now prev c k x Hx. rewrite tick_get in Hx.
    apply in_app_or in Hx as [Hx | [<- | []]].
    + left. eapply In_slice_last, Hx.
    + right. split; [reflexivity |].
      exact (tickSample_within random Hr k now c).
  - intros s k x Hs Hx. exact (within_reachable random Hr s Hs k x Hx).
  - cbn. lra.
Qed.

(** Every call of [Math.random()] returning 0.5. *)
Lemma C4_values_within_bounds_witness :
  Forall (fun x => 40 <= value x <= 110)%R
    (get HeartRate (seriesOf (fst (generateMockData halves 1 1000000 0)))).
Proof.
  apply List.Forall_forall. intros x Hx.
  pose proof (proj1 (C4_values_within_bounds halves halves_unit)
                1%Z 1000000%Z 0 HeartRate x Hx) as Hb.
  cbn [baseline range amplitude] in Hb. lra.
Defined.

Lemma updater_mount random realTime now c0 :
  updater (mount random realTime now c0)
  = if realTime then Running else Stopped.
Proof.
  unfold mount. destruct (windowEffect random R6h now c0) as [v c].
  destruct realTime; reflexivity.
Qed.

Lemma reachable_mount random realTime now c0 :
  reachable random (mount random realTime now c0).
Proof. exists realTime, now, c0, []. reflexivity. Qed.

Lemma reachable_step random s e :
  reachable random s -> reachable random (step random s e).
Proof.
  intros (b & now & c0 & evs & ->). exists b, now, c0, (evs ++ [e]).
  unfold run. rewrite fold_left_app. reflexivity.
Qed.

(** C3.  A tick appends exactly one sample to each of the six series,
    behind the (at most 50) samples it keeps: the sample carries the
    clock reading of the tick, and its value is the baseline of its kind
    plus the random part only.  While the updater runs, one elapsed period
    performs exactly one tick.  The value of a bulk sample is that of a
    tick sample for the same draw plus the sine term, which the tick
    leaves out. *)
Theorem C3_tick_appends_one_sample (random : nat -> R) :
  (forall now prev c k,
     get k (fst (tick random now prev c)) =
     slice_last 50 (get k prev)
     ++ [ {| time := now;
             value := (baseline k
                       + uniform_random k (random (draw k + c)%nat))%R |} ])
  /\ (forall s now,
        reachable random s -> updater s = Running ->
        vitalsData (step random s (Elapse now))
        = fst (tick random now (vitalsData s) (cursor s)))
  /\ (forall k now now' i c,
        field k (fst (mockPoint random now i c))
        = (field k (fst (newPoint random now' c))
           + amplitude k * sin (INR i / period k))%R).
Proof.
  split; [| split].
  - intros now prev c k. apply tick_get.
  - intros s now Hs Hu.
    rewrite elapse_running;
      [apply onInterval_vitals | exact (reachable_wired random s Hs)
      | exact Hu].
  - intros k now now' i c. rewrite mockPoint_field, newPoint_field.
    reflexivity.
Qed.

(** The first period after mounting a live view at instant 1000000. *)
Lemma C3_tick_appends_one_sample_witness :
  vitalsData (step halves (mount halves true 1000000 0) (Elapse 1005000))
  = fst (tick halves 1005000
           (vitalsData (mount halves true 1000000 0))
           (cursor (mount halves true 1000000 0))).
Proof.
  apply (proj1 (proj2 (C3_tick_appends_one_sample halves))).
  - apply reachable_mount.
  - apply updater_mount.
Defined.

(** C1 (as the code has it).  After more than 50 ticks each of the six
    series has exactly 51 samples, the 50 that [slice(-50)] keeps and the
    one just appended, and they are the 51 most recently appended samples,
    oldest first; after any tick a series has at most 51 samples. *)
Theorem C1_steady_state_window (random : nat -> R) (nows : list Z)
  (v : VitalsData) (c : nat) (k : VitalKind) :
  50 < length nows ->
  length (get k (fst (ticks random nows v c))) = 51
  /\ get k (fst (ticks random nows v c))
     = slice_last 51 (tickSamples random k nows c)
  /\ (forall now prev c',
        length (get k (fst (tick random now prev c'))) <= 51).
Proof.
  intros Hn.
  assert (nows <> []) as Hne by (intros ->; cbn in Hn; lia).
  split; [| split].
  - rewrite ticks_length by exact Hne. lia.
  - rewrite ticks_get by exact Hne.
    apply slice_last_app. rewrite length_tickSamples. lia.
  - intros now prev c'. rewrite tick_get, length_app, length_slice_last.
    cbn [length]. lia.
Qed.

(** 51 ticks on the one-hour window generated at instant 1000000. *)
Lemma C1_steady_state_window_witness :
  length (get HeartRate
            (fst (ticks halves (periods 1000000 51)
                    (seriesOf (fst (generateMockData halves 1 1000000 0)))
                    78))) = 51.
Proof.
  assert (50 < length (periods 1000000 51)) as H
    by (unfold periods; rewrite length_map, length_seq; lia).
  exact (proj1 (C1_steady_state_window halves (periods 1000000 51)
                  (seriesOf (fst (generateMockData halves 1 1000000 0)))
                  78 HeartRate H)).
Defined.

(** After 51 ticks the heart-rate series of that window has 51 samples:
    not 50, and more than the cap of 50. *)
Lemma C1_counterexample :
  length (get HeartRate
            (fst (ticks halves (periods 1000000 51)
                    (seriesOf (fst (generateMockData halves 1 1000000 0)))
                    78))) = 51
  /\ ~ (length (get HeartRate
                  (fst (ticks halves (periods 1000000 51)
                          (seriesOf
                             (fst (generateMockData halves 1 1000000 0)))
                          78))) <= 50).
Proof.
  assert (periods 1000000 51 <> []) as Hne by discriminate.
  rewrite ticks_length by exact Hne.
  unfold periods. rewrite length_map, length_seq. lia.
Qed.

Lemma TimeRange_eqb_neq t u : t <> u -> TimeRange_eqb t u = false.
Proof. destruct t, u; intros H; try reflexivity; congruence. Qed.

(** C5.  When the selected window of a mounted view changes to [t], the
    six series are replaced by the series generated for [t] at the current
    time: each has [hours * 12 + 1] samples, which is 13 for 1h, 73 for
    6h, 289 for 24h and 2017 for 7d, and the new series are the same
    whatever series the view held before. *)
Theorem C5_window_change_regenerates (random : nat -> R) (s : Component)
  (t : TimeRange) (now : Z) :
  mounted s = true -> t <> timeRange s ->
  let s' := step random s (SetTimeRange t now) in
  timeRange s' = t
  /\ vitalsData s'
     = seriesOf (fst (generateMockData random (hoursOf t) now (cursor s)))
  /\ (forall k,
        length (get k (vitalsData s')) = Z.to_nat (hoursOf t * 12 + 1))
  /\ (forall s2,
        mounted s2 = true -> t <> timeRange s2 -> cursor s2 = cursor s ->
        vitalsData (step random s2 (SetTimeRange t now)) = vitalsData s')
  /\ (forall k,
        length (get k (vitalsData s'))
        = match t with
          | R1h => 13
          | R6h => 73
          | R24h => 289
          | R7d => 2017
          end).
Proof.
  intros Hm Ht.
  assert (forall s1, mounted s1 = true -> t <> timeRange s1 ->
            step random s1 (SetTimeRange t now) = onTimeRange random t now s1)
    as Hstep.
  { intros s1 H1 H2. cbn [step].
    rewrite H1, (TimeRange_eqb_neq t (timeRange s1) H2). reflexivity. }
  cbn zeta. rewrite (Hstep s Hm Ht).
  assert (vitalsData (onTimeRange random t now s)
          = seriesOf (fst (generateMockData random (hoursOf t) now (cursor s))))
    as Hv by (rewrite onTimeRange_vitals; apply windowEffect_vitals).
  split; [| split; [exact Hv | split; [| split]]].
  - unfold onTimeRange.
    destruct (windowEffect random t now (cursor s)). reflexivity.
  - intros k. rewrite Hv. apply generated_length. destruct t; cbn; lia.
  - intros s2 Hm2 Ht2 Hc. rewrite (Hstep s2 Hm2 Ht2), Hv.
    rewrite onTimeRange_vitals, Hc. apply windowEffect_vitals.
  - intros k. rewrite Hv, generated_length by (destruct t; cbn; lia).
    destruct t; reflexivity.
Qed.

(** Switching a freshly mounted view from six hours to 24 hours. *)
Lemma C5_window_change_regenerates_witness :
  length (get Temperature
            (vitalsData (step halves (mount halves true 1000000 0)
                           (SetTimeRange R24h 1002000)))) = 289.
Proof.
  assert (mounted (mount halves true 1000000 0) = true) as Hm
    by reflexivity.
  assert (R24h <> timeRange (mount halves true 1000000 0)) as Ht
    by discriminate.
  destruct (C5_window_change_regenerates halves
              (mount halves true 1000000 0) R24h 1002000 Hm Ht)
    as (_ & _ & _ & _ & Hlen).
  exact (Hlen Temperature).
Defined.

(** C6.  Clearing the real-time flag or unmounting the view stops the
    updater: no interval handle stays registered, and however many
    periods elapse afterwards the instance, and so every series, stays
    as it was.  The same holds in every state in which the updater is
    stopped. *)
Theorem C6_stopped_updater_is_silent (random : nat -> R) (s : Component)
  (stop : Event) (nows : list Z) :
  reachable random s ->
  stop = Unmount \/ stop = SetRealTime false ->
  let s' := step random s stop in
  updater s' = Stopped
  /\ timers s' = []
  /\ vitalsData (run random s' (map Elapse nows)) = vitalsData s'
  /\ (forall s0,
        reachable random s0 -> updater s0 = Stopped ->
        run random s0 (map Elapse nows) = s0).
Proof.
  intros Hs Hstop s'.
  assert (forall s0, reachable random s0 -> updater s0 = Stopped ->
            run random s0 (map Elapse nows) = s0) as Hquiet.
  { intros s0 H0 Hu. induction nows as [| now rest IH]; [reflexivity |].
    cbn [map]. unfold run. cbn [fold_left].
    rewrite (elapse_stopped random s0 now (reachable_wired random s0 H0) Hu).
    exact IH. }
  assert (updater s' = Stopped) as Hu.
  { subst s'. destruct s as [m r t v i ts n c].
    destruct Hstop as [-> | ->]; destruct m, r, i; reflexivity. }
  assert (reachable random s') as Hs' by (apply reachable_step, Hs).
  pose proof (reachable_wired random s' Hs') as Hw.
  unfold wired in Hw. rewrite Hu in Hw. destruct Hw as [_ Ht].
  split; [exact Hu | split; [exact Ht | split; [| exact Hquiet]]].
  rewrite (Hquiet s' Hs' Hu). reflexivity.
Qed.

(** A live view is unmounted, and three periods elapse. *)
Lemma C6_stopped_updater_is_silent_witness :
  vitalsData (run halves (step halves (mount halves true 1000000 0) Unmount)
                (map Elapse (periods 1000000 3)))
  = vitalsData (step halves (mount halves true 1000000 0) Unmount).
Proof.
  assert (Unmount = Unmount \/ Unmount = SetRealTime false) as H
    by (left; reflexivity).
  destruct (C6_stopped_updater_is_silent halves
              (mount halves true 1000000 0) Unmount (periods 1000000 3)
              (reachable_mount halves true 1000000 0) H)
    as (_ & _ & Hv & _).
  exact Hv.
Defined.

(** C8.  In every state an instance can be in, the six series carry the
    same sequence of timestamps, and so have the same length. *)
Theorem C8_series_aligned (random : nat -> R) (s : Component)
  (k1 k2 : VitalKind) :
  reachable random s ->
  map time (get k1 (vitalsData s)) = map time (get k2 (vitalsData s))
  /\ length (get k1 (vitalsData s)) = length (get k2 (vitalsData s)).
Proof.
  intros (b & now & c0 & evs & ->).
  assert (aligned (vitalsData (run random (mount random b now c0) evs)))
    as H by (apply aligned_run, aligned_mount).
  split; [apply H |].
  rewrite <- (length_map time (get k1 _)), <- (length_map time (get k2 _)).
  rewrite (H k1 k2). reflexivity.
Qed.

(** A live view after two periods, a change of window and one more
    period. *)
Lemma C8_series_aligned_witness :
  map time
    (get HeartRate
       (vitalsData
          (run halves (mount halves true 1000000 0)
             [Elapse 1005000; Elapse 1010000; SetTimeRange R1h 1012000;
              Elapse 1015000])))
  = map time
      (get RespirationRate
         (vitalsData
            (run halves (mount halves true 1000000 0)
               [Elapse 1005000; Elapse 1010000; SetTimeRange R1h 1012000;
                Elapse 1015000]))).
Proof.
  refine (proj1 (C8_series_aligned halves _ HeartRate RespirationRate _)).
  exists true, 1000000%Z, 0, [Elapse 1005000; Elapse 1010000;
                               SetTimeRange R1h 1012000; Elapse 1015000].
  reflexivity.
Defined.

End VitalsFacts.

(** ** Facts about the doctor dashboard *)

Module DoctorFacts.
Import JS DoctorDashboard.

(** *** Strings *)

Section Strings.
Local Open Scope string_scope.

Lemma prefix_spec p : forall s,
  String.prefix p s = true <-> exists t, s = p ++ t.
Proof.
  induction p as [| c p IH]; intros s.
  - split; [intros _; exists s; reflexivity | intros _; destruct s; reflexivity].
  - destruct s as [| d s]; cbn [String.prefix].
    + split; [discriminate | intros [t Ht]; discriminate].
    + destruct (ascii_dec c d) as [-> | Hcd].
      * rewrite IH. split; intros [t Ht]; exists t; cbn in *; congruence.
      * split; [discriminate | intros [t Ht]; cbn in Ht; congruence].
Qed.

Lemma includes_spec sub : forall s,
  includes s sub = true <-> exists a b, s = a ++ sub ++ b.
Proof.
  induction s as [| c s IH]; cbn [includes]; rewrite orb_true_iff.
  - split.
    + intros [H | H]; [| discriminate].
      apply prefix_spec in H as [t Ht]. exists "", t. exact Ht.
    + intros (a & b & H). left. apply prefix_spec.
      destruct a; [exists b; exact H |]. discriminate.
  - rewrite IH, prefix_spec. split.
    + intros [[t Ht] | (a & b & Hab)].
      * exists "", t. exact Ht.
      * exists (String c a), b. cbn. congruence.
    + intros (a & b & H). destruct a as [| d a].
      * left. exists b. exact H.
      * right. exists a, b. cbn in H. congruence.
Qed.

Lemma toLowerCase_app s t :
  toLowerCase (s ++ t) = toLowerCase s ++ toLowerCase t.
Proof. induction s as [| c s IH]; cbn; [reflexivity | now rewrite IH]. Qed.

(** Lower-casing works letter by letter, so a cut of the result is the
    image of a cut of the argument. *)
Lemma toLowerCase_cut x : forall s y,
  toLowerCase s = x ++ y ->
  exists s1 s2, s = s1 ++ s2 /\ toLowerCase s1 = x /\ toLowerCase s2 = y.
Proof.
  induction x as [| c x IH]; intros s y H.
  - exists "", s. repeat split. exact H.
  - destruct s as [| d s]; [discriminate |].
    cbn in H. injection H as Hc H.
    destruct (IH s y H) as (s1 & s2 & -> & <- & <-).
    exists (String d s1), s2. cbn. rewrite Hc. repeat split.
Qed.

Lemma allChars_complete c : In c allChars.
Proof.
  unfold allChars. rewrite <- (ascii_nat_embedding c).
  apply in_map, in_seq. pose proof (nat_ascii_bounded c). lia.
Qed.

Lemma sameLetterb_spec c d : sameLetterb c d = true <-> sameLetter c d.
Proof.
  unfold sameLetterb, sameLetter.
  rewrite !orb_true_iff, Ascii.eqb_eq, !existsb_exists.
  assert (forall x y,
            (exists p, In p letterCases
                       /\ Ascii.eqb (fst p) x && Ascii.eqb (snd p) y = true)
            <-> In (x, y) letterCases) as Hpair.
  { intros x y. split.
    - intros ([a b] & Hin & H). cbn [fst snd] in H.
      apply andb_true_iff in H as [Ha Hb].
      apply Ascii.eqb_eq in Ha, Hb. subst. exact Hin.
    - intros Hin. exists (x, y). cbn [fst snd].
      rewrite !Ascii.eqb_refl. auto. }
  rewrite !Hpair. tauto.
Qed.

(** Checked on every pair of characters: [lower_char] identifies exactly
    the characters that are the same up to case. *)
Lemma lower_char_table :
  forallb
    (fun c =>
       forallb
         (fun d =>
            Bool.eqb (sameLetterb c d)
                     (Ascii.eqb (lower_char c) (lower_char d)))
         allChars)
    allChars = true.
Proof. vm_compute. reflexivity. Qed.

Lemma lower_char_same c d : lower_char c = lower_char d <-> sameLetter c d.
Proof.
  pose proof lower_char_table as H.
  rewrite forallb_forall in H. specialize (H c (allChars_complete c)).
  rewrite forallb_forall in H. specialize (H d (allChars_complete d)).
  apply Bool.eqb_prop in H.
  rewrite <- sameLetterb_spec, H. symmetry. apply Ascii.eqb_eq.
Qed.

(** Two strings have the same lower-case form exactly when they are the
    same up to case. *)
Lemma toLowerCase_same s : forall t,
  toLowerCase s = toLowerCase t <-> equalIgnoringCase s t.
Proof.
  induction s as [| c s IH]; intros [| d t]; cbn [toLowerCase equalIgnoringCase].
  - tauto.
  - split; [discriminate | contradiction].
  - split; [discriminate | contradiction].
  - rewrite <- IH, <- lower_char_same. split.
    + intros [= Hc Hs]. auto.
    + intros [-> ->]. reflexivity.
Qed.

(** [toLowerCase] on both sides of [includes] decides containment up to
    case. *)
Lemma includes_ignoring_case s q :
  includes (toLowerCase s) (toLowerCase q) = true
  <-> containsIgnoringCase s q.
Proof.
  rewrite includes_spec. unfold containsIgnoringCase. split.
  - intros (a & b & H).
    apply toLowerCase_cut in H as (s1 & s' & -> & <- & H).
    apply toLowerCase_cut in H as (s2 & s3 & -> & H & _).
    exists s1, s2, s3. split; [reflexivity | apply toLowerCase_same, H].
  - intros (s1 & s2 & s3 & -> & H). apply toLowerCase_same in H.
    exists (toLowerCase s1), (toLowerCase s3).
    rewrite !toLowerCase_app, H. reflexivity.
Qed.

Lemma includes_empty s : includes s "" = true.
Proof. destruct s; reflexivity. Qed.

End Strings.

(** *** Alerts *)

Lemma acknowledge_same a : sameButAcknowledged (acknowledge a) a.
Proof. repeat split. Qed.

Lemma filter_sublist {A : Type} (f : A -> bool) (l : list A) :
  sublist (List.filter f l) l.
Proof.
  induction l as [| x l IH]; cbn [List.filter].
  - constructor.
  - destruct (f x); [apply sublist_skip | apply sublist_cons]; exact IH.
Qed.

Lemma filter_all {A : Type} (f : A -> bool) (l : list A) :
  (forall x, In x l -> f x = true) -> List.filter f l = l.
Proof.
  induction l as [| x l IH]; intros H; cbn [List.filter]; [reflexivity |].
  rewrite (H x (or_introl eq_refl)), IH; [reflexivity |].
  intros y Hy. apply H. right. exact Hy.
Qed.

(** C9.  Acknowledging by id keeps the length and the order of the alert
    list: an alert with that id stays at its position with its
    acknowledged flag set and its other fields as they were, every other
    alert is left as it was.  Dismissing by id keeps, in their order,
    exactly the alerts with another id.  When no alert has the id, both
    leave the list as it was. *)
Theorem C9_alert_handlers (alertId : string) (alerts : list Alert) :
  let acked := handleAcknowledgeAlert alertId alerts in
  let kept := handleDismissAlert alertId alerts in
  length acked = length alerts
  /\ (forall n a,
        nth_error alerts n = Some a -> id a = alertId ->
        exists a',
          nth_error acked n = Some a' /\ acknowledged a' = true
          /\ sameButAcknowledged a' a)
  /\ (forall n a,
        nth_error alerts n = Some a -> id a <> alertId ->
        nth_error acked n = Some a)
  /\ (forall a, In a kept <-> In a alerts /\ id a <> alertId)
  /\ sublist kept alerts
  /\ ((forall a, In a alerts -> id a <> alertId) ->
      acked = alerts /\ kept = alerts).
Proof.
  cbn zeta. unfold handleAcknowledgeAlert, handleDismissAlert.
  split; [apply length_map |].
  split.
  { intros n a Hn Hid. rewrite nth_error_map, Hn. cbn [option_map].
    apply String.eqb_eq in Hid. rewrite Hid.
    exists (acknowledge a).
    split; [reflexivity | split; [reflexivity | apply acknowledge_same]]. }
  split.
  { intros n a Hn Hid. rewrite nth_error_map, Hn. cbn [option_map].
    apply String.eqb_neq in Hid. rewrite Hid. reflexivity. }
  split.
  { intros a. rewrite filter_In, negb_true_iff, String.eqb_neq.
    reflexivity. }
  split; [apply filter_sublist |].
  intros Hno. split.
  - rewrite <- (map_id alerts) at 2. apply map_ext_in. intros a Ha.
    apply Hno, String.eqb_neq in Ha. rewrite Ha. reflexivity.
  - apply filter_all. intros a Ha.
    apply Hno, String.eqb_neq in Ha. rewrite Ha. reflexivity.
Qed.

(** The second mock alert is acknowledged where it stands. *)
Lemma C9_alert_handlers_witness :
  exists a',
    nth_error (handleAcknowledgeAlert "alert-002" (mockAlerts 1000000)) 1
    = Some a'
    /\ acknowledged a' = true
    /\ title a' = "Elevated Blood Pressure"%string.
Proof.
  destruct (C9_alert_handlers "alert-002" (mockAlerts 1000000))
    as (_ & Hack & _).
  destruct (Hack 1 _ eq_refl eq_refl) as (a' & Hn & Hflag & Hsame).
  exists a'. split; [exact Hn | split; [exact Hflag |]].
  destruct Hsame as (_ & _ & _ & _ & Htitle & _). exact Htitle.
Defined.

Example acknowledge_second (now : Z) :
  map (fun a => (id a, acknowledged a))
      (handleAcknowledgeAlert "alert-002" (mockAlerts now))
  = [("alert-001", false); ("alert-002", true); ("alert-003", false)]%string.
Proof. reflexivity. Qed.

Example dismiss_second (now : Z) :
  map id (handleDismissAlert "alert-002" (mockAlerts now))
  = ["alert-001"; "alert-003"]%string.
Proof. reflexivity. Qed.

(** *** The patient search *)

Lemma matchesSearch_spec q p :
  matchesSearch q p = true <->
  containsIgnoringCase (p_name p) q
  \/ (exists room, p_room p = Some room /\ containsIgnoringCase room q).
Proof.
  unfold matchesSearch. rewrite orb_true_iff, includes_ignoring_case.
  destruct (p_room p) as [room |].
  - rewrite includes_ignoring_case. split.
    + intros [H | H]; [left; exact H | right; exists room; auto].
    + intros [H | (r & Hr & H)]; [left; exact H |].
      right. injection Hr as ->. exact H.
  - split.
    + intros [H | H]; [left; exact H | discriminate].
    + intros [H | (r & Hr & _)]; [left; exact H | discriminate].
Qed.

Lemma matchesSearch_empty p : matchesSearch "" p = true.
Proof.
  unfold matchesSearch. cbn [toLowerCase]. rewrite includes_empty.
  reflexivity.
Qed.

(** C10.  The search keeps exactly the patients whose name or room
    number contains the query as a substring up to the case of the
    letters, in the order of the list; the empty query keeps every
    patient; a patient without a room number is kept exactly when the
    name matches. *)
Theorem C10_patient_search (patients : list Patient) (searchQuery : string) :
  (forall p,
     In p (searchPatients patients searchQuery) <->
     In p patients
     /\ (containsIgnoringCase (p_name p) searchQuery
         \/ exists room,
              p_room p = Some room /\ containsIgnoringCase room searchQuery))
  /\ sublist (searchPatients patients searchQuery) patients
  /\ searchPatients patients "" = patients
  /\ (forall p,
        p_room p = None ->
        (In p (searchPatients patients searchQuery) <->
         In p patients /\ containsIgnoringCase (p_name p) searchQuery))
  /\ filteredPatients searchQuery = searchPatients mockPatients searchQuery.
Proof.
  unfold searchPatients.
  split; [| split; [| split; [| split]]].
  - intros p. rewrite filter_In, matchesSearch_spec. reflexivity.
  - apply filter_sublist.
  - apply filter_all. intros p _. apply matchesSearch_empty.
  - intros p Hroom. rewrite filter_In, matchesSearch_spec. split.
    + intros [Hp [H | (r & Hr & _)]]; [split; assumption | congruence].
    + intros [Hp H]. split; [exact Hp | left; exact H].
  - reflexivity.
Qed.

(** A patient without a room number is found by name only. *)
Lemma C10_patient_search_witness :
  In walkIn (searchPatients (mockPatients ++ [walkIn]) "WARD").
Proof.
  destruct (C10_patient_search (mockPatients ++ [walkIn]) "WARD")
    as (_ & _ & _ & Hnone & _).
  apply (Hnone walkIn eq_refl). split.
  - apply in_or_app. right. left. reflexivity.
  - exists "Ada "%string, "Ward"%string, ""%string.
    split; [reflexivity | apply toLowerCase_same; reflexivity].
Defined.

Example search_by_name :
  map p_id (filteredPatients "CHEN") = ["002"]%string.
Proof. reflexivity. Qed.

Example search_by_room :
  map p_id (filteredPatients "3a") = ["003"]%string.
Proof. reflexivity. Qed.

Example search_accented :
  map p_id (searchPatients (mockPatients ++ [accented])
              (String "233" "MILE z"))
  = ["006"]%string
  /\ map p_id (searchPatients (mockPatients ++ [accented])
                 (String "215" ""))
     = [].
Proof. split; reflexivity. Qed.

Example same_letters :
  sameLetter "A" "a" /\ sameLetter "z" "Z" /\ sameLetter "7" "7"
  /\ sameLetter "201" "233"
  /\ ~ sameLetter "a" "b" /\ ~ sameLetter "@" "`" /\ ~ sameLetter "[" "{"
  /\ ~ sameLetter "215" "247".
Proof.
  repeat split;
    try (apply sameLetterb_spec; reflexivity);
    (intros H; apply sameLetterb_spec in H; discriminate H).
Qed.

Example search_no_room :
  map p_id (searchPatients (mockPatients ++ [walkIn]) "30")
  = ["001"; "002"; "003"; "004"]%string
  /\ map p_id (searchPatients (mockPatients ++ [walkIn]) "ward")
     = ["005"]%string.
Proof. split; reflexivity. Qed.

End DoctorFacts.

(** ** Facts about the charts of the vitals dashboard *)

Module ChartFacts.
Import JS VitalsDashboard VitalChart VitalsFacts.

(** *** Properties every state of an instance has *)

Section Kept.
Variable random : nat -> R.
Variable Q : VitalsData -> Prop.
Hypothesis Q_window : forall t now c, Q (fst (windowEffect random t now c)).
Hypothesis Q_tick : forall now v c, Q v -> Q (fst (tick random now v c)).

Lemma kept_by_step s e : Q (vitalsData s) -> Q (vitalsData (step random s e)).
Proof.
  intros H. destruct e as [t now | b | | now]; cbn [step].
  - destruct (mounted s && negb (TimeRange_eqb t (timeRange s))); [| exact H].
    rewrite onTimeRange_vitals. apply Q_window.
  - destruct (mounted s && negb (Bool.eqb b (isRealTime s))); [| exact H].
    unfold realTimeEffect, withRealTime, cleanup.
    destruct (interval s), b; exact H.
  - destruct (mounted s); [| exact H].
    unfold unmounted, cleanup. destruct (interval s); exact H.
  - generalize (timers s). intros ts. revert s H.
    induction ts as [| h ts IH]; intros s H; cbn [fold_left]; [exact H |].
    apply IH. rewrite onInterval_vitals. apply Q_tick, H.
Qed.

Lemma kept_by_mount realTime now c0 :
  Q (vitalsData (mount random realTime now c0)).
Proof.
  unfold mount. pose proof (Q_window R6h now c0) as H.
  destruct (windowEffect random R6h now c0) as [v c]. cbn [fst] in H.
  destruct realTime; exact H.
Qed.

Lemma kept_when_reachable s : reachable random s -> Q (vitalsData s).
Proof.
  intros (b & now & c0 & evs & ->). unfold run.
  pose proof (kept_by_mount b now c0) as H. revert H.
  generalize (mount random b now c0).
  induction evs as [| e evs IH]; intros s H; [exact H |].
  apply IH, kept_by_step, H.
Qed.

End Kept.

(** *** The chart's reading of a series *)

Lemma lt_spec x y : lt x y = true <-> (x < y)%R.
Proof.
  unfold lt. destruct (Rlt_dec x y); split; intros H;
    try reflexivity; try assumption; [discriminate | contradiction].
Qed.

Lemma truthy_spec x : truthy x = true <-> x <> 0%R.
Proof.
  unfold truthy. destruct (Req_dec_T x 0); split; intros H;
    try reflexivity; try assumption; [discriminate | contradiction].
Qed.

Lemma latestValue_nil : latestValue [] = None.
Proof. reflexivity. Qed.

Lemma latestValue_snoc older sample :
  latestValue (older ++ [sample]) = Some (value sample).
Proof.
  unfold latestValue, at_index. rewrite length_app. cbn [length].
  destruct (Z.ltb_spec (Z.of_nat (length older + 1) - 1) 0); [lia |].
  replace (Z.to_nat (Z.of_nat (length older + 1) - 1)) with (length older)
    by lia.
  rewrite nth_error_app2 by lia. rewrite Nat.sub_diag. reflexivity.
Qed.

(** A series has a latest value exactly when it ends in a sample. *)
Lemma latestValue_Some data v :
  latestValue data = Some v <->
  exists older sample, data = older ++ [sample] /\ value sample = v.
Proof.
  split.
  - induction data as [| sample older _] using rev_ind.
    + discriminate.
    + rewrite latestValue_snoc. intros [= <-]. exists older, sample. auto.
  - intros (older & sample & -> & <-). apply latestValue_snoc.
Qed.

Lemma isAbnormal_spec range v :
  isAbnormal (Some range) v = true <-> (v < min range \/ max range < v)%R.
Proof.
  unfold isAbnormal. rewrite orb_true_iff, !lt_spec. reflexivity.
Qed.

Lemma flag_spec data normalRange :
  isCurrentAbnormal data normalRange = true <->
  exists older sample range,
    data = older ++ [sample] /\ normalRange = Some range
    /\ value sample <> 0%R
    /\ (value sample < min range \/ max range < value sample)%R.
Proof.
  unfold isCurrentAbnormal. split.
  - destruct (latestValue data) as [v |] eqn:Hv; [| discriminate].
    destruct normalRange as [range |]; [| discriminate].
    destruct (truthy v) eqn:Ht; [| discriminate].
    intros Hab. apply latestValue_Some in Hv as (older & sample & -> & <-).
    exists older, sample, range.
    apply truthy_spec in Ht. apply isAbnormal_spec in Hab. auto.
  - intros (older & sample & range & -> & -> & Hnz & Hout).
    rewrite latestValue_snoc.
    apply truthy_spec in Hnz. rewrite Hnz. apply isAbnormal_spec, Hout.
Qed.

(** X1.  The chart flags its reading exactly when the series ends in a
    sample, a normal range is given, and the value of that sample is not 0
    and lies outside the range.  An empty series shows the placeholder and
    no flag.  A latest value of 0 is never flagged and shows the
    placeholder, also when [isAbnormal] itself finds 0 below the range. *)
Theorem X1_abnormal_flag (data : list VitalSample)
  (normalRange : option NormalRange) :
  (isCurrentAbnormal data normalRange = true <->
   exists older sample range,
     data = older ++ [sample] /\ normalRange = Some range
     /\ value sample <> 0%R
     /\ (value sample < min range \/ max range < value sample)%R)
  /\ (isCurrentAbnormal [] normalRange = false
      /\ shownValue [] = ShownText "--")
  /\ (forall older t range,
        (0 < min range)%R ->
        isAbnormal (Some range) 0 = true
        /\ isCurrentAbnormal (older ++ [ {| time := t; value := 0 |} ])
             (Some range) = false
        /\ shownValue (older ++ [ {| time := t; value := 0 |} ])
           = ShownText "--").
Proof.
  split; [apply flag_spec | split].
  - split; reflexivity.
  - intros older t range Hmin.
    split; [apply isAbnormal_spec; left; exact Hmin |].
    unfold isCurrentAbnormal, shownValue. rewrite latestValue_snoc.
    cbn [value].
    assert (truthy 0 = false) as ->
      by (unfold truthy; destruct (Req_dec_T 0 0); congruence).
    split; reflexivity.
Qed.

(** A series all of whose values lie in the normal range is not flagged. *)
Lemma normal_not_flagged data range :
  (forall x, In x data -> (min range <= value x <= max range)%R) ->
  isCurrentAbnormal data (Some range) = false.
Proof.
  intros H. apply not_true_is_false. intros Hab.
  apply flag_spec in Hab as (older & sample & r & -> & [= <-] & _ & Hout).
  assert (In sample (older ++ [sample])) as Hin
    by (apply in_or_app; right; left; reflexivity).
  specialize (H sample Hin). lra.
Qed.

(** *** Bounds of the feed *)

Section FeedBounds.
Variable random : nat -> R.
Hypothesis random_unit : forall n, (0 <= random n < 1)%R.

Local Open Scope R_scope.

Lemma draw_bounds k n :
  drawLow k <= uniform_random k (random n) <= drawHigh k.
Proof.
  pose proof (uniform_random_bounds random random_unit k n) as H.
  destruct k; cbn [drawLow drawHigh] in *; lra.
Qed.

Lemma mockPoint_feed k now i c :
  feedLow k <= field k (fst (mockPoint random now i c)) <= feedHigh k.
Proof.
  rewrite mockPoint_field.
  pose proof (draw_bounds k (draw k + c)) as Hu.
  pose proof (SIN_bound (INR i / period k)) as Hs.
  unfold feedLow, feedHigh.
  destruct k; cbn [baseline drawLow drawHigh range amplitude] in *; lra.
Qed.

Lemma tickSample_feed k now c :
  baseline k + drawLow k <= value (tickSample random k now c)
  <= baseline k + drawHigh k.
Proof.
  pose proof (draw_bounds k (draw k + c)) as Hu.
  unfold tickSample. cbn [value]. lra.
Qed.

Lemma feed_window t now c k x :
  In x (get k (fst (windowEffect random t now c))) ->
  feedLow k <= value x <= feedHigh k.
Proof.
  rewrite windowEffect_vitals, get_seriesOf. unfold toSeries.
  rewrite in_map_iff. intros (d & <- & Hd). cbn [value].
  unfold generateMockData in Hd.
  destruct (hoursOf t * 12 <? 0)%Z; [contradiction Hd |].
  rewrite mockLoop_spec in Hd. cbn [fst app] in Hd.
  apply in_map_iff in Hd as (j & <- & _). apply mockPoint_feed.
Qed.

Lemma feed_reachable s k x :
  reachable random s -> In x (get k (vitalsData s)) ->
  feedLow k <= value x <= feedHigh k.
Proof.
  intros Hs. revert k x.
  apply (kept_when_reachable random
           (fun v => forall k x, In x (get k v) ->
                        feedLow k <= value x <= feedHigh k)); [| | exact Hs].
  - intros t now c k x. apply feed_window.
  - intros now v c Hv k x. rewrite tick_get. intros Hx.
    apply in_app_or in Hx as [Hx | [<- | []]].
    + apply Hv. eapply In_slice_last, Hx.
    + pose proof (tickSample_feed k now c) as Ht.
      unfold feedLow, feedHigh.
      destruct k; cbn [baseline drawLow drawHigh range amplitude] in *; lra.
Qed.

End FeedBounds.

(** *** What the charts of a live view show *)

Section Live.
Variable random : nat -> R.

Lemma elapse_series s now k :
  reachable random s -> updater s = Running ->
  get k (vitalsData (step random s (Elapse now)))
  = slice_last 50 (get k (vitalsData s))
    ++ [tickSample random k now (cursor s)].
Proof.
  intros Hs Hu.
  rewrite (elapse_running random s now (reachable_wired random s Hs) Hu).
  rewrite onInterval_vitals. apply tick_get.
Qed.

Lemma nonempty_reachable s k :
  reachable random s -> get k (vitalsData s) <> [].
Proof.
  intros Hs. revert k.
  apply (kept_when_reachable random (fun v => forall k, get k v <> []));
    [| | exact Hs].
  - intros t now c k E. apply (f_equal (@length _)) in E.
    rewrite windowEffect_vitals, generated_length in E
      by (destruct t; cbn; lia).
    destruct t; cbn in E; lia.
  - intros now v c _ k E. rewrite tick_get in E.
    apply app_eq_nil in E as [_ E]. discriminate.
Qed.

End Live.

(** X2.  When [Math.random()] returns numbers of [[0, 1)], every value an
    instance ever holds lies between the extremes the formulas can reach:
    [baseline - amplitude] and [baseline + range - 1 + amplitude], and
    [98.6 - 1.5] and [98.6 + 1.5] for the temperature.  These are
    60..109 for the heart rate, 105..134 and 67..87 for the two pressures,
    97.1..100.1 for the temperature, 93..101 for the oxygen saturation and
    14..25 for the respiration rate. *)
Theorem X2_feed_bounds (random : nat -> R) (s : Component) (k : VitalKind)
  (x : VitalSample) :
  (forall n, 0 <= random n < 1)%R ->
  reachable random s -> In x (get k (vitalsData s)) ->
  (feedLow k <= value x <= feedHigh k)%R
  /\ (feedLow HeartRate = 60 /\ feedHigh HeartRate = 109)%R
  /\ (feedLow BloodPressureSystolic = 105
      /\ feedHigh BloodPressureSystolic = 134)%R
  /\ (feedLow BloodPressureDiastolic = 67
      /\ feedHigh BloodPressureDiastolic = 87)%R
  /\ (feedLow Temperature = 97.1 /\ feedHigh Temperature = 100.1)%R
  /\ (feedLow OxygenSaturation = 93 /\ feedHigh OxygenSaturation = 101)%R
  /\ (feedLow RespirationRate = 14 /\ feedHigh RespirationRate = 25)%R.
Proof.
  intros Hr Hs Hx.
  split; [exact (feed_reachable random Hr s k x Hs Hx) |].
  unfold feedLow, feedHigh. cbn [baseline drawLow drawHigh range amplitude].
  repeat split; lra.
Qed.

(** The heart-rate sample of the first tick of a live view. *)
Lemma X2_feed_bounds_witness :
  (60 <= value (tickSample halves HeartRate 1005000
                  (cursor (mount halves true 1000000 0))) <= 109)%R.
Proof.
  pose proof (reachable_mount halves true 1000000 0) as Hs.
  pose proof (updater_mount halves true 1000000 0) as Hu.
  destruct (X2_feed_bounds halves
              (step halves (mount halves true 1000000 0) (Elapse 1005000))
              HeartRate
              (tickSample halves HeartRate 1005000
                 (cursor (mount halves true 1000000 0)))
              halves_unit
              (reachable_step halves _ _ Hs))
    as (Hb & (Hlo & Hhi) & _).
  - rewrite (elapse_series halves _ 1005000 HeartRate Hs Hu).
    apply in_or_app. right. left. reflexivity.
  - rewrite Hlo, Hhi in Hb. exact Hb.
Defined.

(** X3.  With [Math.random()] in [[0, 1)], the charts of the systolic and
    of the diastolic pressure are never flagged as abnormal, in no state
    of an instance; the heart-rate chart is flagged exactly when its
    latest value exceeds 100, never for a low value. *)
Theorem X3_pressure_charts_never_flagged (random : nat -> R)
  (s : Component) :
  (forall n, 0 <= random n < 1)%R ->
  reachable random s ->
  chartAbnormal BloodPressureSystolic (vitalsData s) = false
  /\ chartAbnormal BloodPressureDiastolic (vitalsData s) = false
  /\ (chartAbnormal HeartRate (vitalsData s) = true <->
      exists v,
        latestValue (heartRate (vitalsData s)) = Some v /\ (100 < v)%R).
Proof.
  intros Hr Hs.
  pose proof (fun k x => feed_reachable random Hr s k x Hs) as Hfeed.
  unfold feedLow, feedHigh in Hfeed.
  split; [| split].
  - apply normal_not_flagged. intros x Hx.
    specialize (Hfeed BloodPressureSystolic x Hx).
    cbn in Hfeed |- *. lra.
  - apply normal_not_flagged. intros x Hx.
    specialize (Hfeed BloodPressureDiastolic x Hx).
    cbn in Hfeed |- *. lra.
  - unfold chartAbnormal. cbn [get]. rewrite flag_spec. split.
    + intros (older & sample & range & E & [= <-] & _ & Hout).
      exists (value sample). split.
      * rewrite E. apply latestValue_snoc.
      * assert (In sample (heartRate (vitalsData s))) as Hin
          by (rewrite E; apply in_or_app; right; left; reflexivity).
        specialize (Hfeed HeartRate sample Hin).
        cbn in Hfeed, Hout. lra.
    + intros (v & Hv & Hhigh).
      apply latestValue_Some in Hv as (older & sample & E & <-).
      exists older, sample, (chartRange HeartRate).
      split; [exact E | split; [reflexivity |]].
      cbn. split; [lra | right; exact Hhigh].
Qed.

(** A live view right after mounting. *)
Lemma X3_pressure_charts_never_flagged_witness :
  chartAbnormal BloodPressureSystolic
    (vitalsData (mount halves true 1000000 0)) = false.
Proof.
  exact (proj1 (X3_pressure_charts_never_flagged halves
                  (mount halves true 1000000 0) halves_unit
                  (reachable_mount halves true 1000000 0))).
Defined.

(** X4.  With [Math.random()] in [[0, 1)], right after a tick of a running
    instance the charts of the heart rate, of both pressures and of the
    oxygen saturation are not flagged: the sample a tick appends lies in
    their normal range.  (Only the temperature and the respiration rate
    can be flagged by a tick.) *)
Theorem X4_tick_reading_normal (random : nat -> R) (s : Component)
  (now : Z) (k : VitalKind) :
  (forall n, 0 <= random n < 1)%R ->
  reachable random s -> updater s = Running ->
  k <> Temperature -> k <> RespirationRate ->
  latestValue (get k (vitalsData (step random s (Elapse now))))
  = Some (value (tickSample random k now (cursor s)))
  /\ chartAbnormal k (vitalsData (step random s (Elapse now))) = false.
Proof.
  intros Hr Hs Hu Ht Hresp.
  unfold chartAbnormal. rewrite (elapse_series random s now k Hs Hu).
  split; [apply latestValue_snoc |].
  apply not_true_is_false. intros Hab.
  apply flag_spec in Hab as (older & sample & range & E & [= <-] & _ & Hout).
  apply app_inj_tail in E as [_ <-].
  pose proof (tickSample_feed random Hr k now (cursor s)) as Hb.
  destruct k; try congruence;
    cbn [baseline drawLow drawHigh range chartRange min max] in Hb, Hout;
    lra.
Qed.

(** The oxygen-saturation chart after the first tick of a live view. *)
Lemma X4_tick_reading_normal_witness :
  chartAbnormal OxygenSaturation
    (vitalsData (step halves (mount halves true 1000000 0)
                   (Elapse 1005000))) = false.
Proof.
  assert (OxygenSaturation <> Temperature) as H1 by discriminate.
  assert (OxygenSaturation <> RespirationRate) as H2 by discriminate.
  exact (proj2 (X4_tick_reading_normal halves (mount halves true 1000000 0)
                  1005000 OxygenSaturation halves_unit
                  (reachable_mount halves true 1000000 0)
                  (updater_mount halves true 1000000 0) H1 H2)).
Defined.

(** X5.  At the first commit, before the window effect has run,
    [vitalsData] is [{}]: every chart is fed the empty array and shows
    the placeholder, unflagged.  Once the effects of the mount have run,
    with [Math.random()] in [[0, 1)] every series the instance holds has
    a latest sample and its value is positive, so each of the six charts
    shows a number. *)
Theorem X5_placeholder_only_before_effects (random : nat -> R)
  (s : Component) (k : VitalKind) :
  (forall n, 0 <= random n < 1)%R ->
  reachable random s ->
  (chartData k None = []
   /\ shownValue (chartData k None) = ShownText "--"
   /\ isCurrentAbnormal (chartData k None) (Some (chartRange k)) = false)
  /\ exists v,
       latestValue (chartData k (Some (vitalsData s))) = Some v
       /\ (0 < v)%R
       /\ shownValue (chartData k (Some (vitalsData s))) = ShownNumber v.
Proof.
  intros Hr Hs. split; [repeat split |]. cbn [chartData].
  pose proof (nonempty_reachable random s k Hs) as Hne.
  destruct (exists_last Hne) as (older & sample & E).
  assert (In sample (get k (vitalsData s))) as Hin
    by (rewrite E; apply in_or_app; right; left; reflexivity).
  pose proof (feed_reachable random Hr s k sample Hs Hin) as Hb.
  assert (0 < value sample)%R as Hpos.
  { unfold feedLow in Hb.
    destruct k; cbn [baseline drawLow amplitude] in Hb; lra. }
  exists (value sample). unfold shownValue.
  rewrite E, latestValue_snoc.
  assert (truthy (value sample) = true) as -> by (apply truthy_spec; lra).
  auto.
Qed.

(** The temperature chart of a view after its first tick. *)
Lemma X5_placeholder_only_before_effects_witness :
  shownValue (chartData Temperature None) = ShownText "--"
  /\ exists v,
       shownValue
         (chartData Temperature
            (Some (vitalsData (step halves (mount halves true 1000000 0)
                                 (Elapse 1005000)))))
       = ShownNumber v.
Proof.
  destruct (X5_placeholder_only_before_effects halves
              (step halves (mount halves true 1000000 0) (Elapse 1005000))
              Temperature halves_unit
              (reachable_step halves _ (Elapse 1005000)
                 (reachable_mount halves true 1000000 0)))
    as ((_ & Hfirst & _) & v & _ & _ & Hv).
  split; [exact Hfirst | exists v; exact Hv].
Defined.

(** *** The window after a tick *)

(** X6.  A tick on a freshly generated window of five hours or more (the
    selections 6h, 24h and 7d) leaves 51 samples in each series: the 50
    newest generated ones, which reach back 245 minutes from the time of
    the generation, followed by the sample of the tick.  All older
    samples of the selected window are gone after the first tick. *)
Theorem X6_first_tick_cuts_window (random : nat -> R) (h now0 : Z)
  (c : nat) (now : Z) (c' : nat) (k : VitalKind) :
  (5 <= h)%Z ->
  let shown :=
    get k (fst (tick random now
                  (seriesOf (fst (generateMockData random h now0 c))) c')) in
  length shown = 51
  /\ (forall j x,
        j < 50 -> nth_error shown j = Some x ->
        time x = (now0 - (49 - Z.of_nat j) * 300000)%Z)
  /\ nth_error shown 50 = Some (tickSample random k now c').
Proof.
  intros Hh shown. subst shown. rewrite tick_get.
  assert (0 <= h)%Z as Hh0 by lia.
  pose proof (generated_length random k h now0 c Hh0) as Hlen.
  set (series := get k (seriesOf (fst (generateMockData random h now0 c))))
    in *.
  assert (length (slice_last 50 series) = 50) as Hkept
    by (rewrite length_slice_last; lia).
  split; [rewrite length_app, Hkept; reflexivity |].
  split.
  - intros j x Hj Hx. rewrite nth_error_app1 in Hx by lia.
    unfold slice_last in Hx. rewrite nth_error_skipn in Hx.
    apply (generated_time random k h now0 c _ x Hh0) in Hx as [-> _]. lia.
  - rewrite nth_error_app2 by lia. rewrite Hkept. reflexivity.
Qed.

(** The first tick on the default window of six hours. *)
Lemma X6_first_tick_cuts_window_witness :
  length (get HeartRate
            (fst (tick halves 1005000
                    (seriesOf (fst (generateMockData halves 6 1000000 0)))
                    438))) = 51.
Proof.
  assert (5 <= 6)%Z as H by lia.
  exact (proj1 (X6_first_tick_cuts_window halves 6 1000000 0 1005000 438
                  HeartRate H)).
Defined.

(** X15.  After [n >= 1] ticks a series holds [min 51 (m + n)] samples,
    [m] being what it held before.  While [m + n] does not exceed 51
    nothing is evicted: the series is what it was, followed by the
    samples of the ticks.  So the 13 samples of a one-hour window grow by
    one per tick until the 38th tick and stay at 51 from then on. *)
Theorem X15_series_fills_up (random : nat -> R) (nows : list Z)
  (v : VitalsData) (c : nat) (k : VitalKind) :
  nows <> [] ->
  length (get k (fst (ticks random nows v c)))
  = Nat.min 51 (length (get k v) + length nows)
  /\ (length (get k v) + length nows <= 51 ->
      get k (fst (ticks random nows v c))
      = get k v ++ tickSamples random k nows c).
Proof.
  intros Hne. split; [apply ticks_length, Hne |].
  intros Hle. rewrite ticks_get by exact Hne.
  apply slice_last_all. rewrite length_app, length_tickSamples. exact Hle.
Qed.

(** Twenty ticks on a one-hour window. *)
Lemma X15_series_fills_up_witness :
  length (get HeartRate
            (fst (ticks halves (periods 1000000 20)
                    (seriesOf (fst (generateMockData halves 1 1000000 0)))
                    78))) = 33.
Proof.
  assert (periods 1000000 20 <> []) as Hne by discriminate.
  assert (0 <= 1)%Z as H1 by lia.
  rewrite (proj1 (X15_series_fills_up halves (periods 1000000 20)
                    (seriesOf (fst (generateMockData halves 1 1000000 0)))
                    78 HeartRate Hne)).
  rewrite (generated_length halves HeartRate 1 1000000 0 H1).
  reflexivity.
Defined.

(** *** A view that is not live *)

Section Static.
Variable random : nat -> R.

Lemma pristine_step s e :
  e <> SetRealTime true ->
  pristine random s -> pristine random (step random s e).
Proof.
  intros He (Hr & Ht & now & c & Hv).
  destruct e as [t now' | b | | now']; cbn [step].
  - destruct (mounted s && negb (TimeRange_eqb t (timeRange s)));
      [| repeat split; eauto].
    pose proof (onTimeRange_vitals random t now' s) as Hv'.
    rewrite windowEffect_vitals in Hv'.
    assert (isRealTime (onTimeRange random t now' s) = isRealTime s
            /\ timers (onTimeRange random t now' s) = timers s
            /\ timeRange (onTimeRange random t now' s) = t) as (E1 & E2 & E3).
    { unfold onTimeRange.
      destruct (windowEffect random t now' (cursor s)). repeat split. }
    unfold pristine. rewrite E1, E2, E3.
    split; [exact Hr | split; [exact Ht |]].
    exists now', (cursor s). exact Hv'.
  - destruct b; [congruence |].
    rewrite Hr. cbn [Bool.eqb negb]. rewrite andb_false_r.
    repeat split; eauto.
  - destruct (mounted s); [| repeat split; eauto].
    unfold unmounted, cleanup.
    destruct (interval s); cbn; rewrite ?Ht; repeat split; eauto.
  - rewrite Ht. cbn [fold_left]. repeat split; eauto.
Qed.

End Static.

(** X16.  In a view mounted without the real-time flag, whose flag is
    never set, the series held once the effects of an event have run are
    the full window of the selection of that moment: 13 samples for 1h,
    73 for 6h, 289 for 24h and 2017 for 7d in each series, five minutes
    apart.  Elapsed periods never touch them. *)
Theorem X16_static_view_keeps_window (random : nat -> R) (now0 : Z)
  (c0 : nat) (evs : list Event) (k : VitalKind) :
  ~ In (SetRealTime true) evs ->
  let s := run random (mount random false now0 c0) evs in
  length (get k (vitalsData s))
  = match timeRange s with
    | R1h => 13
    | R6h => 73
    | R24h => 289
    | R7d => 2017
    end
  /\ (forall j x y,
        nth_error (get k (vitalsData s)) j = Some x ->
        nth_error (get k (vitalsData s)) (S j) = Some y ->
        time y = (time x + 300000)%Z)
  /\ (forall now, vitalsData (step random s (Elapse now)) = vitalsData s).
Proof.
  intros Hno s.
  assert (pristine random s) as (_ & Ht & now & c & Hv).
  { subst s. unfold run.
    assert (pristine random (mount random false now0 c0)) as H0.
    { unfold mount, pristine.
      pose proof (windowEffect_vitals random R6h now0 c0) as E.
      destruct (windowEffect random R6h now0 c0) as [v c]. cbn [fst] in E.
      cbn. repeat split. exists now0, c0. exact E. }
    revert H0 Hno. generalize (mount random false now0 c0).
    induction evs as [| e evs IH]; intros s0 H0 Hno; [exact H0 |].
    cbn [fold_left]. apply IH.
    - apply pristine_step; [| exact H0].
      intros ->. apply Hno. left. reflexivity.
    - intros Hin. apply Hno. right. exact Hin. }
  assert (0 <= hoursOf (timeRange s))%Z as Hh
    by (destruct (timeRange s); cbn; lia).
  split; [| split].
  - rewrite Hv, generated_length by exact Hh.
    destruct (timeRange s); reflexivity.
  - rewrite Hv. intros j x y Hx Hy.
    apply generated_time in Hx as [-> _]; [| exact Hh].
    apply generated_time in Hy as [-> _]; [| exact Hh]. lia.
  - intros now'. cbn [step]. rewrite Ht. reflexivity.
Qed.

(** Periods elapse and a view that is not live is switched to 24 hours. *)
Lemma X16_static_view_keeps_window_witness :
  length (get HeartRate
            (vitalsData
               (run halves (mount halves false 1000000 0)
                  [Elapse 1005000; SetTimeRange R24h 1007000;
                   Elapse 1010000])))
  = 289.
Proof.
  refine (proj1 (X16_static_view_keeps_window halves 1000000 0
                   [Elapse 1005000; SetTimeRange R24h 1007000;
                    Elapse 1010000] HeartRate _)).
  cbn. intuition discriminate.
Defined.

(** *** Timestamps in order *)

Section Order.

Lemma sorted_map_seq (f : nat -> Z) n : forall a,
  (forall i j, i < j -> (f i < f j)%Z) ->
  StronglySorted Z.lt (map f (seq a n)).
Proof.
  induction n as [| n IH]; intros a Hf; cbn [seq map]; constructor.
  - apply IH, Hf.
  - apply List.Forall_forall. intros z Hz.
    apply in_map_iff in Hz as (j & <- & Hj). apply in_seq in Hj.
    apply Hf. lia.
Qed.

Lemma sorted_drop {A : Type} (lt : A -> A -> Prop) n : forall l,
  StronglySorted lt l -> StronglySorted lt (drop n l).
Proof.
  induction n as [| n IH]; intros l H; [exact H |].
  destruct l as [| x l]; [exact H |].
  cbn [skipn]. apply IH. apply StronglySorted_inv in H as [H _]. exact H.
Qed.

Lemma sorted_snoc (l : list Z) x :
  StronglySorted Z.lt l -> Forall (fun u => (u < x)%Z) l ->
  StronglySorted Z.lt (l ++ [x]).
Proof.
  induction l as [| y l IH]; intros Hs Hx; cbn [app].
  - constructor; constructor.
  - apply StronglySorted_inv in Hs as [Hs Hy].
    apply Forall_cons_1 in Hx as [Hyx Hx].
    constructor; [apply IH; assumption |].
    apply Forall_app. split; [exact Hy | constructor; [exact Hyx | constructor]].
Qed.

Variable random : nat -> R.

Lemma window_times t now c k :
  map time (get k (fst (windowEffect random t now c)))
  = map (fun j => (now - (hoursOf t * 12 - Z.of_nat j) * 300000)%Z)
        (seq 0 (S (Z.to_nat (hoursOf t * 12)))).
Proof.
  assert (0 <= hoursOf t)%Z as Hh by (destruct t; cbn; lia).
  rewrite windowEffect_vitals, get_seriesOf, toSeries_times.
  rewrite generateMockData_spec by exact Hh. cbn [fst].
  rewrite map_map. apply map_ext_in. intros j Hj. apply in_seq in Hj.
  rewrite mockPoint_time. lia.
Qed.

Lemma ordered_later t t' v : (t <= t')%Z -> ordered t v -> ordered t' v.
Proof.
  intros Ht H k. destruct (H k) as [Hs Hle]. split; [exact Hs |].
  eapply List.Forall_impl; [| exact Hle]. cbn. intros u Hu. lia.
Qed.

Lemma ordered_window t now c : ordered now (fst (windowEffect random t now c)).
Proof.
  assert (0 <= hoursOf t)%Z as Hh by (destruct t; cbn; lia).
  intros k. rewrite window_times. split.
  - apply sorted_map_seq. intros i j Hij. lia.
  - apply List.Forall_forall. intros u Hu.
    apply in_map_iff in Hu as (j & <- & Hj). apply in_seq in Hj. lia.
Qed.

Lemma ordered_tick t now v c :
  (t < now)%Z -> ordered t v -> ordered now (fst (tick random now v c)).
Proof.
  intros Ht H k. destruct (H k) as [Hs Hle].
  rewrite tick_get, map_app, map_slice_last. cbn [map tickSample time].
  assert (Forall (fun u => (u <= t)%Z) (slice_last 50 (map time (get k v))))
    as Hle' by (apply Forall_drop, Hle).
  split.
  - apply sorted_snoc; [apply sorted_drop, Hs |].
    eapply List.Forall_impl; [| exact Hle']. cbn. intros u Hu. lia.
  - apply Forall_app. split.
    + eapply List.Forall_impl; [| exact Hle']. cbn. intros u Hu. lia.
    + constructor; [lia | constructor].
Qed.

Lemma ordered_step s e t :
  wired s -> ordered t (vitalsData s) ->
  match eventClock e with
  | Some now => (t < now)%Z -> ordered now (vitalsData (step random s e))
  | None => ordered t (vitalsData (step random s e))
  end.
Proof.
  intros Hw H. destruct e as [r now | b | | now]; cbn [eventClock step].
  - intros Ht.
    destruct (mounted s && negb (TimeRange_eqb r (timeRange s))).
    + rewrite onTimeRange_vitals. apply ordered_window.
    + apply (ordered_later t); [lia | exact H].
  - destruct (mounted s && negb (Bool.eqb b (isRealTime s))); [| exact H].
    unfold realTimeEffect, withRealTime, cleanup.
    destruct (interval s), b; exact H.
  - destruct (mounted s); [| exact H].
    unfold unmounted, cleanup. destruct (interval s); exact H.
  - intros Ht. unfold wired in Hw.
    destruct (updater s); [destruct Hw as (h & _ & ->) | destruct Hw as [_ ->]];
      cbn [fold_left].
    + rewrite onInterval_vitals. apply (ordered_tick t); assumption.
    + apply (ordered_later t); [lia | exact H].
Qed.

Lemma ordered_run evs : forall s t,
  wired s -> ordered t (vitalsData s) -> chronological t evs ->
  exists t', ordered t' (vitalsData (run random s evs)).
Proof.
  induction evs as [| e evs IH]; intros s t Hw H Hc.
  - exists t. exact H.
  - cbn [chronological] in Hc. unfold run. cbn [fold_left].
    pose proof (ordered_step s e t Hw H) as Hstep.
    pose proof (step_wired random s e Hw) as Hw'.
    destruct (eventClock e) as [now |].
    + destruct Hc as [Ht Hc]. apply (IH _ now Hw' (Hstep Ht) Hc).
    + apply (IH _ t Hw' Hstep Hc).
Qed.

End Order.

(** X7.  When every clock reading an instance takes is later than the one
    before it, the timestamps of each series increase strictly, from the
    oldest sample to the newest, in every state the instance goes
    through. *)
Theorem X7_series_chronological (random : nat -> R) (realTime : bool)
  (now0 : Z) (c0 : nat) (evs : list Event) (k : VitalKind) :
  chronological now0 evs ->
  StronglySorted Z.lt
    (map time
       (get k (vitalsData (run random (mount random realTime now0 c0) evs)))).
Proof.
  intros Hc.
  assert (ordered now0 (vitalsData (mount random realTime now0 c0))) as H0.
  { unfold mount.
    pose proof (ordered_window random R6h now0 c0) as H.
    destruct (windowEffect random R6h now0 c0) as [v c]. cbn [fst] in H.
    destruct realTime; exact H. }
  destruct (ordered_run random evs _ now0
              (mount_wired random realTime now0 c0) H0 Hc) as [t' H].
  apply H.
Qed.

(** Two ticks, a change of window and one more tick. *)
Lemma X7_series_chronological_witness :
  StronglySorted Z.lt
    (map time
       (get Temperature
          (vitalsData
             (run halves (mount halves true 1000000 0)
                [Elapse 1005000; Elapse 1010000; SetTimeRange R24h 1012000;
                 Elapse 1015000])))).
Proof.
  apply X7_series_chronological. cbn. lia.
Defined.

(** *** Interval handles *)

(** X8.  An instance never has more than one interval registered: exactly
    one while it is mounted with the real-time flag set, none otherwise,
    however often the flag was toggled.  So one elapsed period never adds
    more than one sample to a series. *)
Theorem X8_at_most_one_interval (random : nat -> R) (s : Component) :
  reachable random s ->
  length (timers s) <= 1
  /\ (timers s <> [] <-> mounted s = true /\ isRealTime s = true)
  /\ (forall now k,
        length (get k (vitalsData (step random s (Elapse now))))
        <= length (get k (vitalsData s)) + 1).
Proof.
  intros Hs. pose proof (reachable_wired random s Hs) as Hw.
  unfold wired, updater in Hw.
  destruct (mounted s && isRealTime s) eqn:E.
  - destruct Hw as (h & Hi & Ht). apply andb_true_iff in E.
    split; [rewrite Ht; cbn; lia |].
    split; [split; [intros _; exact E | rewrite Ht; discriminate] |].
    intros now k. cbn [step]. rewrite Ht. cbn [fold_left].
    rewrite onInterval_vitals, tick_get, length_app, length_slice_last.
    cbn [length]. lia.
  - destruct Hw as [_ Ht].
    split; [rewrite Ht; cbn; lia |].
    split.
    + rewrite Ht. split; [congruence |].
      intros [Hm Hr]. rewrite Hm, Hr in E. discriminate.
    + intros now k. cbn [step]. rewrite Ht. cbn [fold_left]. lia.
Qed.

(** The flag of a live view is cleared and set again. *)
Lemma X8_at_most_one_interval_witness :
  length (timers (run halves (mount halves true 1000000 0)
                    [SetRealTime false; SetRealTime true])) <= 1.
Proof.
  refine (proj1 (X8_at_most_one_interval halves _ _)).
  exists true, 1000000%Z, 0, [SetRealTime false; SetRealTime true].
  reflexivity.
Defined.

End ChartFacts.

(** ** Facts about the rest of the doctor dashboard *)

Module DoctorViewFacts.
Import JS DoctorDashboard DoctorView DoctorFacts.

(** *** Opening a patient *)

Lemma injective_on_NoDup {A B : Type} (f : A -> B) (l : list A) a b :
  List.NoDup (map f l) -> In a l -> In b l -> f a = f b -> a = b.
Proof.
  induction l as [| x l IH]; intros Hnd Ha Hb E; [contradiction Ha |].
  cbn [map] in Hnd. apply NoDup_cons_iff in Hnd as [Hx Hnd].
  destruct Ha as [-> | Ha], Hb as [-> | Hb].
  - reflexivity.
  - exfalso. apply Hx. rewrite E. apply in_map, Hb.
  - exfalso. apply Hx. rewrite <- E. apply in_map, Ha.
  - apply IH; assumption.
Qed.

Lemma findPatient_listed patients p :
  List.NoDup (map p_id patients) -> In p patients ->
  findPatient patients (p_id p) = Some p.
Proof.
  unfold findPatient. intros Hnd Hp.
  destruct (List.find (fun p0 => String.eqb (p_id p0) (p_id p)) patients)
    as [p' |] eqn:E.
  - apply find_some in E as [Hp' E]. apply String.eqb_eq in E.
    f_equal. apply (injective_on_NoDup p_id patients); assumption.
  - apply (find_none _ _ E) in Hp. rewrite String.eqb_refl in Hp.
    discriminate.
Qed.

(** X9.  In a patient list without repeated ids, looking up the id of a
    listed patient, in particular of any patient the search shows, finds
    that very patient: a click on a card opens the monitor of the
    patient on the card.  The lookup finds nothing exactly when no
    patient has the id, and what it finds always carries the id. *)
Theorem X9_card_opens_its_patient (patients : list Patient)
  (searchQuery : string) (p : Patient) :
  List.NoDup (map p_id patients) ->
  In p (searchPatients patients searchQuery) ->
  findPatient patients (p_id p) = Some p
  /\ (forall i,
        findPatient patients i = None <->
        (forall p', In p' patients -> p_id p' <> i))
  /\ (forall i p',
        findPatient patients i = Some p' -> In p' patients /\ p_id p' = i).
Proof.
  intros Hnd Hp. unfold searchPatients in Hp. apply filter_In in Hp as [Hp _].
  split; [apply findPatient_listed; assumption |].
  split.
  - intros i. unfold findPatient. split.
    + intros E p' Hp' Hid. apply (find_none _ _ E) in Hp'.
      apply String.eqb_eq in Hid. congruence.
    + intros Hno.
      destruct (List.find (fun p0 => String.eqb (p_id p0) i) patients)
        as [p' |] eqn:E; [| reflexivity].
      apply find_some in E as [Hp' E]. apply String.eqb_eq in E.
      exfalso. exact (Hno p' Hp' E).
  - intros i p' E. unfold findPatient in E.
    apply find_some in E as [Hp' E]. apply String.eqb_eq in E. auto.
Qed.

(** The card the search for "chen" shows opens Michael Chen. *)
Lemma X9_card_opens_its_patient_witness :
  option_map p_name
    (getPatientById (p_id (nth 1 mockPatients walkIn)))
  = Some "Michael Chen"%string.
Proof.
  assert (List.NoDup (map p_id mockPatients)) as Hnd.
  { cbn. repeat constructor; cbn; intuition discriminate. }
  assert (In (nth 1 mockPatients walkIn) (searchPatients mockPatients "chen"))
    as Hp by (left; reflexivity).
  unfold getPatientById.
  rewrite (proj1 (X9_card_opens_its_patient mockPatients "chen"
                    (nth 1 mockPatients walkIn) Hnd Hp)).
  reflexivity.
Defined.

(** *** The counters of the header *)

(** X10.  The three counters of the header add up to the total: every
    patient is counted as stable, as warning or as critical, and as one
    of them only. *)
Theorem X10_counters_add_up (patients : list Patient) :
  countCondition Stable patients + countCondition Warning patients
  + countCondition Critical patients = length patients.
Proof.
  unfold countCondition.
  induction patients as [| p patients IH]; [reflexivity |].
  cbn [List.filter length].
  destruct (p_condition p); cbn [Condition_eqb length]; lia.
Qed.

Example mock_counters :
  (length mockPatients, countCondition Stable mockPatients,
   countCondition Warning mockPatients, countCondition Critical mockPatients)
  = (4, 2, 1, 1).
Proof. reflexivity. Qed.

(** *** The two handlers together *)

Lemma id_acknowledge a : id (acknowledge a) = id a.
Proof. reflexivity. Qed.

Lemma acknowledge_twice a : acknowledge (acknowledge a) = acknowledge a.
Proof. reflexivity. Qed.

(** X11.  The handlers can be applied in any order and repeated without
    effect: each is idempotent, any two of them commute, and once an id
    has been dismissed acknowledging it changes nothing. *)
Theorem X11_handlers_compose (i j : string) (alerts : list Alert) :
  handleAcknowledgeAlert i (handleAcknowledgeAlert i alerts)
  = handleAcknowledgeAlert i alerts
  /\ handleDismissAlert i (handleDismissAlert i alerts)
     = handleDismissAlert i alerts
  /\ handleAcknowledgeAlert i (handleAcknowledgeAlert j alerts)
     = handleAcknowledgeAlert j (handleAcknowledgeAlert i alerts)
  /\ handleDismissAlert i (handleDismissAlert j alerts)
     = handleDismissAlert j (handleDismissAlert i alerts)
  /\ handleAcknowledgeAlert i (handleDismissAlert j alerts)
     = handleDismissAlert j (handleAcknowledgeAlert i alerts)
  /\ handleAcknowledgeAlert i (handleDismissAlert i alerts)
     = handleDismissAlert i alerts.
Proof.
  unfold handleAcknowledgeAlert, handleDismissAlert.
  induction alerts as [| a alerts (IH1 & IH2 & IH3 & IH4 & IH5 & IH6)];
    [repeat split |].
  cbn [map List.filter].
  destruct (String.eqb (id a) i) eqn:Ei, (String.eqb (id a) j) eqn:Ej;
    cbn [negb map List.filter];
    rewrite ?id_acknowledge, ?Ei, ?Ej; cbn [negb map List.filter];
    rewrite ?id_acknowledge, ?Ei, ?Ej; cbn [negb];
    repeat split; try congruence; (f_equal; assumption).
Qed.

(** *** The badge of the alert panel *)

(** X12.  Acknowledging an id and dismissing it lower the count of active
    alerts by the same amount, the number of alerts with that id that
    were not acknowledged; after acknowledging, no alert with that id is
    active. *)
Theorem X12_active_count (i : string) (alerts : list Alert) :
  activeCount (handleAcknowledgeAlert i alerts)
  = activeCount (handleDismissAlert i alerts)
  /\ activeCount (handleAcknowledgeAlert i alerts)
     + length (List.filter
                 (fun a => String.eqb (id a) i && negb (acknowledged a))
                 alerts)
     = activeCount alerts
  /\ Forall (fun a => id a = i -> acknowledged a = true)
       (handleAcknowledgeAlert i alerts).
Proof.
  unfold activeCount, handleAcknowledgeAlert, handleDismissAlert.
  induction alerts as [| a alerts (IH1 & IH2 & IH3)];
    [repeat split; constructor |].
  cbn [map List.filter].
  destruct (String.eqb (id a) i) eqn:Ei; cbn [negb andb List.filter acknowledged acknowledge].
  - split; [exact IH1 |]. split.
    + destruct (acknowledged a); cbn [negb length]; lia.
    + constructor; [reflexivity | exact IH3].
  - destruct (acknowledged a) eqn:Ea; cbn [negb length].
    + split; [exact IH1 |]. split; [exact IH2 |].
      constructor; [intros _; exact Ea | exact IH3].
    + split; [congruence |]. split; [lia |].
      apply String.eqb_neq in Ei.
      constructor; [intros E; contradiction | exact IH3].
Qed.

Example mock_badge (now : Z) :
  (activeCount (mockAlerts now),
   activeCount (handleAcknowledgeAlert "alert-002" (mockAlerts now)),
   activeCount (handleDismissAlert "alert-002" (mockAlerts now)))
  = (3, 2, 2).
Proof. reflexivity. Qed.

(** *** Clicking through the alert panel *)

Lemma button_alert alerts c :
  In c (buttons alerts) ->
  exists b,
    In b alerts /\ acknowledged b = false
    /\ (c = ClickAcknowledge (id b) \/ c = ClickDismiss (id b)).
Proof.
  unfold buttons. rewrite in_flat_map. intros (b & Hb & Hc).
  destruct (acknowledged b) eqn:E; cbn in Hc; [contradiction |].
  exists b. destruct Hc as [<- | [<- | []]]; auto.
Qed.

Lemma ids_acknowledge i alerts :
  map id (handleAcknowledgeAlert i alerts) = map id alerts.
Proof.
  unfold handleAcknowledgeAlert. rewrite map_map. apply map_ext.
  intros a. destruct (String.eqb (id a) i); reflexivity.
Qed.

Lemma NoDup_ids_dismiss i alerts :
  List.NoDup (map id alerts) ->
  List.NoDup (map id (handleDismissAlert i alerts)).
Proof.
  unfold handleDismissAlert.
  induction alerts as [| a alerts IH]; intros H; [exact H |].
  cbn [map] in H. apply NoDup_cons_iff in H as [Ha H].
  cbn [List.filter]. destruct (negb (String.eqb (id a) i)); [| exact (IH H)].
  cbn [map]. apply NoDup_cons_iff. split; [| exact (IH H)].
  intros Hin. apply Ha. apply in_map_iff in Hin as (b & E & Hb).
  apply filter_In in Hb as [Hb _]. rewrite <- E. apply in_map, Hb.
Qed.

(** A click on a rendered button leaves an acknowledged alert where it
    is, when ids are not repeated. *)
Lemma click_keeps alerts c a :
  List.NoDup (map id alerts) -> In a alerts -> acknowledged a = true ->
  In c (buttons alerts) ->
  In a (click alerts c) /\ List.NoDup (map id (click alerts c)).
Proof.
  intros Hnd Ha Hack Hc.
  apply button_alert in Hc as (b & Hb & Hopen & Hc).
  assert (id a <> id b) as Hid.
  { intros E. apply (injective_on_NoDup id alerts a b Hnd Ha Hb) in E.
    congruence. }
  apply String.eqb_neq in Hid.
  destruct Hc as [-> | ->]; cbn [click].
  - split; [| rewrite ids_acknowledge; exact Hnd].
    unfold handleAcknowledgeAlert. apply in_map_iff. exists a.
    rewrite Hid. auto.
  - split; [| apply NoDup_ids_dismiss, Hnd].
    unfold handleDismissAlert. apply filter_In. rewrite Hid. auto.
Qed.

(** X13.  In an alert list without repeated ids, an alert that is
    acknowledged can never be removed through the panel: the panel renders
    buttons only for alerts that are not acknowledged, so after any
    sequence of clicks the alert is still listed, no dismiss button is
    offered for it, and the panel does not return to its empty state. *)
Theorem X13_acknowledged_alert_stays (alerts : list Alert)
  (cs : list Click) (alerts' : list Alert) (a : Alert) :
  List.NoDup (map id alerts) -> In a alerts -> acknowledged a = true ->
  clicks alerts cs alerts' ->
  In a alerts'
  /\ ~ In (ClickDismiss (id a)) (buttons alerts')
  /\ showsEmptyState alerts' = false.
Proof.
  intros Hnd Ha Hack Hcs.
  assert (In a alerts' /\ List.NoDup (map id alerts')) as [Ha' Hnd'].
  { induction Hcs as [alerts | alerts c cs alerts' Hc _ IH]; [auto |].
    destruct (click_keeps alerts c a Hnd Ha Hack Hc) as [Ha1 Hnd1].
    apply IH; assumption. }
  split; [exact Ha' |]. split.
  - intros Hc. apply button_alert in Hc as (b & Hb & Hopen & [E | E]);
      [discriminate |].
    injection E as E.
    apply (injective_on_NoDup id alerts' a b Hnd' Ha' Hb) in E. congruence.
  - unfold showsEmptyState. destruct alerts'; [contradiction Ha' | reflexivity].
Qed.

(** The second mock alert is dismissed and the first acknowledged. *)
Lemma X13_acknowledged_alert_stays_witness :
  In handled
     (click (click (handled :: mockAlerts 1000000)
               (ClickDismiss "alert-002"))
        (ClickAcknowledge "alert-001")).
Proof.
  assert (List.NoDup (map id (handled :: mockAlerts 1000000))) as Hnd.
  { cbn. repeat constructor; cbn; intuition discriminate. }
  refine (proj1 (X13_acknowledged_alert_stays
                   (handled :: mockAlerts 1000000)
                   [ClickDismiss "alert-002"; ClickAcknowledge "alert-001"]
                   _ handled Hnd (or_introl eq_refl) eq_refl _)).
  apply clicks_next; [cbn; tauto |].
  apply clicks_next; [cbn; tauto |].
  apply clicks_none.
Defined.

(** *** The initials on a patient card *)

Section Initials.
Local Open Scope string_scope.

Lemma append_assoc (s t u : string) : (s ++ t) ++ u = s ++ (t ++ u).
Proof. induction s as [| c s IH]; cbn; [reflexivity | now rewrite IH]. Qed.

Lemma chars_app (s t : string) :
  list_ascii_of_string (s ++ t)
  = (list_ascii_of_string s ++ list_ascii_of_string t)%list.
Proof. induction s as [| c s IH]; cbn; [reflexivity | now rewrite IH]. Qed.

Lemma split_nonempty sep s : split sep s <> [].
Proof.
  destruct s as [| c s]; cbn [split]; [discriminate |].
  destruct (Ascii.eqb c sep); [discriminate |].
  destruct (split sep s); discriminate.
Qed.

(** Splitting cuts exactly at the separators. *)
Lemma split_app sep a b :
  split sep (a ++ String sep b) = (split sep a ++ split sep b)%list.
Proof.
  induction a as [| c a IH]; cbn [append split].
  - rewrite Ascii.eqb_refl. reflexivity.
  - rewrite IH. destruct (Ascii.eqb c sep); [reflexivity |].
    pose proof (split_nonempty sep a) as Hne.
    destruct (split sep a); [contradiction | reflexivity].
Qed.

Lemma split_whole sep s :
  (forall c, In c (list_ascii_of_string s) -> c <> sep) ->
  split sep s = [s].
Proof.
  induction s as [| c s IH]; intros H; cbn [split]; [reflexivity |].
  assert (Ascii.eqb c sep = false) as ->
    by (apply Ascii.eqb_neq, H; left; reflexivity).
  rewrite IH; [reflexivity |]. intros d Hd. apply H. right. exact Hd.
Qed.

(** A piece holds characters of the string, none of them the separator. *)
Lemma split_pieces sep s : forall piece c,
  In piece (split sep s) -> In c (list_ascii_of_string piece) ->
  c <> sep /\ In c (list_ascii_of_string s).
Proof.
  induction s as [| d s IH]; intros piece c Hp Hc; cbn [split] in Hp.
  - destruct Hp as [<- | []]. contradiction Hc.
  - destruct (Ascii.eqb d sep) eqn:E.
    + destruct Hp as [<- | Hp]; [contradiction Hc |].
      destruct (IH piece c Hp Hc) as [H1 H2]. split; [exact H1 | right; exact H2].
    + pose proof (split_nonempty sep s) as Hne.
      destruct (split sep s) as [| first rest]; [contradiction |].
      destruct Hp as [<- | Hp].
      * destruct Hc as [<- | Hc].
        -- split; [apply Ascii.eqb_neq, E | left; reflexivity].
        -- destruct (IH first c (or_introl eq_refl) Hc) as [H1 H2].
           split; [exact H1 | right; exact H2].
      * destruct (IH piece c (or_intror Hp) Hc) as [H1 H2].
        split; [exact H1 | right; exact H2].
Qed.

Lemma join_app arr arr' : join (arr ++ arr')%list = join arr ++ join arr'.
Proof.
  induction arr as [| [piece |] arr IH]; cbn [app join].
  - reflexivity.
  - rewrite IH, append_assoc. reflexivity.
  - exact IH.
Qed.

Lemma join_firsts pieces c :
  In c (list_ascii_of_string (join (map firstChar pieces))) ->
  exists piece, In piece pieces /\ In c (list_ascii_of_string piece).
Proof.
  induction pieces as [| piece pieces IH]; cbn [map join]; [intros [] |].
  destruct piece as [| d piece]; cbn [firstChar].
  - intros H. destruct (IH H) as (q & Hq & Hc).
    exists q. split; [right; exact Hq | exact Hc].
  - cbn. intros [<- | H].
    + exists (String d piece). split; left; reflexivity.
    + destruct (IH H) as (q & Hq & Hc).
      exists q. split; [right; exact Hq | exact Hc].
Qed.

End Initials.

(** X14.  The initials on a patient card are made word by word: the
    initials of two names joined by a space are the initials of the first
    followed by those of the second; a name without a space gives its
    first character (nothing when it is empty); and the initials consist
    of characters of the name and never contain a space, however many
    spaces the name has. *)
Theorem X14_initials (a b : string) :
  initials (a ++ " " ++ b) = (initials a ++ initials b)%string
  /\ ((forall c, In c (list_ascii_of_string a) -> c <> " "%char) ->
      initials a
      = match a with
        | EmptyString => EmptyString
        | String c _ => String c EmptyString
        end)
  /\ Forall (fun c => c <> " "%char /\ In c (list_ascii_of_string a))
       (list_ascii_of_string (initials a)).
Proof.
  unfold initials. split; [| split].
  - change (a ++ " " ++ b)%string with (a ++ String " " b)%string.
    rewrite split_app, map_app. apply join_app.
  - intros H. rewrite (split_whole " " a H). destruct a; reflexivity.
  - apply List.Forall_forall. intros c Hc.
    apply join_firsts in Hc as (piece & Hp & Hc).
    exact (split_pieces " " a piece c Hp Hc).
Qed.

Example initials_examples :
  (initials "Sarah Johnson", initials "Emily  Rodriguez ", initials " ",
   initials "")
  = ("SJ", "ER", "", "")%string.
Proof. reflexivity. Qed.

End DoctorViewFacts.
